(** * oopsy: custom hardware code generation

    A shallow embedding of [source/custom_hardware/custom_hardware.js]
    (the revision with the ten peripheral generators and the
    [generateCustomHardwareImpl] template), together with the properties
    of the generated C++ text that the specification states.

    Conventions of the embedding:
    - a JavaScript list that may be missing is an [option (list _)];
    - a field that the code only interpolates, tests for truthiness or
      compares with [===] is a [jsval] (it may be missing, i.e. [JUndefined]);
    - [arr.forEach((x, idx) => ...)] whose callback pushes onto a local
      array is a left fold carrying that array ([forEach]);
    - a [TypeError] raised by reading a property of [undefined] is the
      [TypeError] result;
    - the in-place write of [driver_name] onto display entries is explicit
      state passing: the generator returns the entries as it leaves them;
    - the record types hold the entries of a well-formed document; module
      [Raw] gives the generators that take no part in that write a second
      time, on lists of arbitrary values, where reading a [null] entry or
      calling [forEach] on a [labels] that is no array throws. *)

From Stdlib Require Import String Ascii List ZArith Lia Bool PeanoNat.
From Stdlib Require Import DecimalString.
From Stdlib Require DecimalNat DecimalFacts.
Import ListNotations.
Local Open Scope list_scope.
Local Open Scope string_scope.

(** ** JavaScript values and their conversions *)

(** Scalar values found in the fields of a hardware description.  [JNum]
    stands for integer-valued numbers (pins, addresses), printed in plain
    decimal. *)
Inductive jsval : Type :=
  | JUndefined
  | JNull
  | JBool (b : bool)
  | JNum (n : Z)
  | JStr (s : string).

Definition nl : string := String (ascii_of_nat 10) EmptyString.
Definition dquote : string := String (ascii_of_nat 34) EmptyString.

(** [`${idx}`] for an array index or a length. *)
Definition nat_str (n : nat) : string := NilZero.string_of_uint (Nat.to_uint n).

(** [`${b}`] for a boolean. *)
Definition bool_str (b : bool) : string := if b then "true" else "false".

(** [`${v}`]: ToString of a value inside a template literal. *)
Definition ToString (v : jsval) : string :=
  match v with
  | JUndefined => "undefined"
  | JNull => "null"
  | JBool b => bool_str b
  | JNum n => NilZero.string_of_int (Z.to_int n)
  | JStr s => s
  end.

(** [!!v]: ToBoolean. *)
Definition ToBoolean (v : jsval) : bool :=
  match v with
  | JUndefined | JNull => false
  | JBool b => b
  | JNum n => negb (Z.eqb n 0)
  | JStr s => negb (String.eqb s "")
  end.

(** [v === "lit"]. *)
Definition strict_eq_str (v : jsval) (lit : string) : bool :=
  match v with
  | JStr s => String.eqb s lit
  | _ => false
  end.

(** One element of [Array.prototype.join]: [undefined] and [null] give the
    empty string, everything else its ToString. *)
Definition join_elem (v : jsval) : string :=
  match v with
  | JUndefined | JNull => ""
  | _ => ToString v
  end.

(** [arr.join(sep)] on an array of strings. *)
Definition join (sep : string) (code : list string) : string :=
  String.concat sep code.

(** [code.push(line)]. *)
Definition push (code : list string) (line : string) : list string :=
  (code ++ [line])%list.

(** [arr.forEach((x, idx) => body)], the body updating a state [St]. *)
Fixpoint forEach_from {A St : Type} (idx : nat) (arr : list A)
    (body : A -> nat -> St -> St) (s : St) : St :=
  match arr with
  | [] => s
  | x :: rest => forEach_from (S idx) rest body (body x idx s)
  end.

Definition forEach {A St : Type} (arr : list A) (body : A -> nat -> St -> St)
    (s : St) : St :=
  forEach_from 0 arr body s.

(** Results of code that may throw. *)
Inductive result (A : Type) : Type :=
  | Ok (a : A)
  | TypeError.
Arguments Ok {A} a.
Arguments TypeError {A}.

(** [forEach] with a body that may throw: the first throw ends the loop. *)
Fixpoint forEachE_from {A St : Type} (idx : nat) (arr : list A)
    (body : A -> nat -> St -> result St) (s : St) : result St :=
  match arr with
  | [] => Ok s
  | x :: rest =>
      match body x idx s with
      | Ok s' => forEachE_from (S idx) rest body s'
      | TypeError => TypeError
      end
  end.

Definition bindE {A B : Type} (r : result A) (k : A -> result B) : result B :=
  match r with
  | Ok a => k a
  | TypeError => TypeError
  end.

Notation "x <- r ;; k" := (bindE r (fun x => k))
  (at level 61, r at next level, right associativity).

Definition forEachE {A St : Type} (arr : list A)
    (body : A -> nat -> St -> result St) (s : St) : result St :=
  forEachE_from 0 arr body s.

(** [list || []]. *)
Definition or_empty {A : Type} (l : option (list A)) : list A :=
  match l with
  | Some l => l
  | None => []
  end.

(** [!list || !list.length]. *)
Definition absent {A : Type} (l : option (list A)) : bool :=
  match l with
  | Some (_ :: _) => false
  | _ => true
  end.

(** ** The code generation contexts *)

Inductive Context : Type :=
  | INCLUDE
  | DECLARATION
  | INITIALIZATION
  | PROCESSING.

(** ** Entries of the hardware description *)

Module AnalogControl.
(** An entry of [analog_controls] or of [cv_inputs]: the generator merges
    the two lists and reads the same fields of both. *)
Record t : Type := mk
  { pin : jsval; flip : jsval; invert : jsval; labels : option (list string) }.
End AnalogControl.

Module CvOutput.
(** No field of a [cv_outputs] entry is read. *)
Record t : Type := mk { pin : jsval; labels : option (list string) }.
End CvOutput.

Module Encoder.
Record t : Type := mk
  { pin_a : jsval; pin_b : jsval; pin_switch : jsval;
    labels : option (list string) }.
End Encoder.

Module Switch.
Record t : Type := mk
  { pin : jsval; type : jsval; polarity : jsval; pull : jsval;
    labels : option (list string) }.
End Switch.

Module Led.
Record t : Type := mk
  { pin : jsval; invert : jsval; labels : option (list string) }.
End Led.

Module RgbLed.
Record t : Type := mk
  { pin_r : jsval; pin_g : jsval; pin_b : jsval; invert : jsval;
    labels : option (list string) }.
End RgbLed.

Module GateInput.
Record t : Type := mk { pin : jsval; labels : option (list string) }.
End GateInput.

Module GateOutput.
(** No field of a [gate_outputs] entry is read. *)
Record t : Type := mk { pin : jsval; labels : option (list string) }.
End GateOutput.

Module MidiHandler.
(** No field of a [midi_handlers] entry is read. *)
Record t : Type := mk { pin_rx : jsval; pin_tx : jsval }.
End MidiHandler.

Module SpiConfig.
Record t : Type := mk { pin_dc : jsval; pin_reset : jsval }.
End SpiConfig.

Module I2cConfig.
Record t : Type := mk
  { address : jsval; peripheral : jsval; speed : jsval;
    pin_sda : jsval; pin_scl : jsval }.
End I2cConfig.

Module OledDisplay.
(** [_4_wire_spi_config] is the property ["4_wire_spi_config"];
    [driver_name] is the property the generator writes. *)
Record t : Type := mk
  { driver : jsval; transport : jsval; dimensions : jsval;
    _4_wire_spi_config : option SpiConfig.t;
    i2c_config : option I2cConfig.t;
    driver_name : jsval }.

Definition set_driver_name (d : t) (v : jsval) : t :=
  mk (driver d) (transport d) (dimensions d)
     (_4_wire_spi_config d) (i2c_config d) v.
End OledDisplay.

(** ** The peripheral generators *)

Definition generateAnalogControls
    (analog_controls cv_inputs : option (list AnalogControl.t))
    (context : Context) : string :=
  let all_controls :=
    (([] ++ or_empty analog_controls) ++ or_empty cv_inputs)%list in
  if Nat.eqb (length all_controls) 0 then ""
  else
    match context with
    | DECLARATION =>
        let code :=
          [ "// analog_controls declaration";
            "AnalogControl controls[" ++ nat_str (length all_controls) ++ "];" ] in
        let code :=
          forEach all_controls (fun analog_control idx code =>
            match AnalogControl.labels analog_control with
            | Some labels =>
                forEach labels (fun label _ code =>
                  push code ("AnalogControl& " ++ label ++ " = controls["
                             ++ nat_str idx ++ "];")) code
            | None => code
            end) code in
        join (nl ++ "    ") code
    | INITIALIZATION =>
        let code :=
          [ "// BEGIN - analog_controls initialization";
            "AdcChannelConfig cfg[" ++ nat_str (length all_controls) ++ "];" ] in
        let code :=
          forEach all_controls (fun analog_control idx code =>
            push code ("cfg[" ++ nat_str idx ++ "].InitSingle(seed.GetPin("
                       ++ ToString (AnalogControl.pin analog_control) ++ "));"))
            code in
        let code :=
          push code ("seed.adc.Init(cfg, " ++ nat_str (length all_controls) ++ ");") in
        let code :=
          forEach all_controls (fun analog_control idx code =>
            push code ("controls[" ++ nat_str idx ++ "].Init(seed.adc.GetPtr("
                       ++ nat_str idx ++ "), seed.AudioCallbackRate(), "
                       ++ bool_str (ToBoolean (AnalogControl.flip analog_control))
                       ++ ", "
                       ++ bool_str (ToBoolean (AnalogControl.invert analog_control))
                       ++ ");"))
            code in
        let code := push code "seed.adc.Start();" in
        let code := push code "// END - analog_controls initialization" in
        join (nl ++ "        ") code
    | PROCESSING =>
        let code := [ "// process analog_controls" ] in
        let code :=
          forEach all_controls (fun analog_control idx code =>
            push code ("controls[" ++ nat_str idx ++ "].Process();")) code in
        join (nl ++ "        ") code
    | INCLUDE => ""
    end.

Definition generateCvOutputs (cv_outputs : option (list CvOutput.t))
    (context : Context) : string :=
  if absent cv_outputs then ""
  else
    let cv_outputs :=
      if Nat.ltb 2 (length (or_empty cv_outputs))
      then firstn 2 (or_empty cv_outputs)
      else or_empty cv_outputs in
    match context with
    | INITIALIZATION =>
        let code :=
          [ "// BEGIN - cv_outputs initialization";
            "DacHandle::Config dac_cfg;";
            "dac_cfg.bitdepth   = DacHandle::BitDepth::BITS_12;";
            "dac_cfg.buff_state = DacHandle::BufferState::ENABLED;";
            "dac_cfg.mode       = DacHandle::Mode::POLLING;";
            "dac_cfg.chn        = DacHandle::Channel::BOTH;";
            "seed.dac.Init(dac_cfg);";
            "seed.dac.WriteValue(DacHandle::Channel::BOTH, 0);";
            "// END - cv_outputs initialization" ] in
        join (nl ++ "        ") code
    | _ => ""
    end.

Definition generateEncoders (encoders : option (list Encoder.t))
    (context : Context) : string :=
  if absent encoders then ""
  else
    let encoders := or_empty encoders in
    match context with
    | DECLARATION =>
        let code :=
          [ "//  encoders declaration";
            "Encoder encoders[" ++ nat_str (length encoders) ++ "];";
            "Encoder& encoder = encoders[0];" ] in
        let code :=
          forEach encoders (fun encoder idx code =>
            match Encoder.labels encoder with
            | Some labels =>
                forEach labels (fun label _ code =>
                  push code ("Encoder& " ++ label ++ " = encoders["
                             ++ nat_str idx ++ "];")) code
            | None => code
            end) code in
        join (nl ++ "    ") code
    | INITIALIZATION =>
        let code := [ "// BEGIN - encoders initialization" ] in
        let code :=
          forEach encoders (fun encoder idx code =>
            push code ("encoders[" ++ nat_str idx ++ "].Init(seed.GetPin("
                       ++ ToString (Encoder.pin_a encoder) ++ "), seed.GetPin("
                       ++ ToString (Encoder.pin_b encoder) ++ "), seed.GetPin("
                       ++ ToString (Encoder.pin_switch encoder)
                       ++ "), seed.AudioCallbackRate());")) code in
        let code := push code "// END - encoders initialization" in
        join (nl ++ "        ") code
    | PROCESSING =>
        let code := [ "// process encoders" ] in
        let code :=
          forEach encoders (fun encoder idx code =>
            push code ("encoders[" ++ nat_str idx ++ "].Debounce();")) code in
        join (nl ++ "        ") code
    | INCLUDE => ""
    end.

Definition generateSwitches (switches : option (list Switch.t))
    (context : Context) : string :=
  if absent switches then ""
  else
    let switches := or_empty switches in
    match context with
    | DECLARATION =>
        let code :=
          [ "//  switches declaration";
            "Switch switches[" ++ nat_str (length switches) ++ "];" ] in
        let code :=
          forEach switches (fun switch_ idx code =>
            match Switch.labels switch_ with
            | Some labels =>
                forEach labels (fun label _ code =>
                  push code ("Switch& " ++ label ++ " = switches["
                             ++ nat_str idx ++ "];")) code
            | None => code
            end) code in
        join (nl ++ "    ") code
    | INITIALIZATION =>
        let code := [ "// BEGIN - switches initialization" ] in
        let code :=
          forEach switches (fun _switch idx code =>
            push code ("switches[" ++ nat_str idx ++ "].Init(seed.GetPin("
                       ++ ToString (Switch.pin _switch)
                       ++ "), seed.AudioCallbackRate(), Switch::Type::"
                       ++ ToString (Switch.type _switch) ++ ", Switch::Polarity::"
                       ++ ToString (Switch.polarity _switch) ++ ", Switch::Pull::"
                       ++ ToString (Switch.pull _switch) ++ ");")) code in
        let code := push code "// END - switches initialization" in
        join (nl ++ "        ") code
    | PROCESSING =>
        let code := [ "// process switches" ] in
        let code :=
          forEach switches (fun _switch idx code =>
            push code ("switches[" ++ nat_str idx ++ "].Debounce();")) code in
        join (nl ++ "        ") code
    | INCLUDE => ""
    end.

Definition generateLeds (leds : option (list Led.t)) (context : Context)
    : string :=
  if absent leds then ""
  else
    let leds := or_empty leds in
    match context with
    | DECLARATION =>
        let code :=
          [ "//  leds declaration";
            "Led leds[" ++ nat_str (length leds) ++ "];" ] in
        let code :=
          forEach leds (fun led idx code =>
            match Led.labels led with
            | Some labels =>
                forEach labels (fun label _ code =>
                  push code ("Led& " ++ label ++ " = leds["
                             ++ nat_str idx ++ "];")) code
            | None => code
            end) code in
        join (nl ++ "    ") code
    | INITIALIZATION =>
        let code := [ "// BEGIN - leds initialization" ] in
        let code :=
          forEach leds (fun led idx code =>
            push code ("leds[" ++ nat_str idx ++ "].Init(seed.GetPin("
                       ++ ToString (Led.pin led) ++ "), "
                       ++ bool_str (ToBoolean (Led.invert led)) ++ ");")) code in
        let code := push code "// END - leds initialization" in
        join (nl ++ "        ") code
    | PROCESSING =>
        let code := [ "// process leds" ] in
        let code :=
          forEach leds (fun led idx code =>
            push code ("leds[" ++ nat_str idx ++ "].Update();")) code in
        join (nl ++ "        ") code
    | INCLUDE => ""
    end.

Definition generateRgbLeds (rgb_leds : option (list RgbLed.t))
    (context : Context) : string :=
  if absent rgb_leds then ""
  else
    let rgb_leds := or_empty rgb_leds in
    match context with
    | DECLARATION =>
        let code :=
          [ "//  rgb_leds declaration";
            "RgbLed rgb_leds[" ++ nat_str (length rgb_leds) ++ "];" ] in
        let code :=
          forEach rgb_leds (fun rgb_led idx code =>
            match RgbLed.labels rgb_led with
            | Some labels =>
                forEach labels (fun label _ code =>
                  push code ("RgbLed& " ++ label ++ " = rgb_leds["
                             ++ nat_str idx ++ "];")) code
            | None => code
            end) code in
        join (nl ++ "    ") code
    | INITIALIZATION =>
        let code := [ "// BEGIN - rgb_leds initialization" ] in
        let code :=
          forEach rgb_leds (fun rgb_led idx code =>
            push code ("rgb_leds[" ++ nat_str idx ++ "].Init(seed.GetPin("
                       ++ ToString (RgbLed.pin_r rgb_led) ++ "), seed.GetPin("
                       ++ ToString (RgbLed.pin_g rgb_led) ++ "), seed.GetPin("
                       ++ ToString (RgbLed.pin_b rgb_led) ++ "), "
                       ++ bool_str (ToBoolean (RgbLed.invert rgb_led)) ++ ");"))
            code in
        let code := push code "// END - rgb_leds initialization" in
        join (nl ++ "        ") code
    | PROCESSING =>
        let code := [ "// process rgb_leds" ] in
        let code :=
          forEach rgb_leds (fun rgb_led idx code =>
            push code ("rgb_leds[" ++ nat_str idx ++ "].Update();")) code in
        join (nl ++ "        ") code
    | INCLUDE => ""
    end.

(** The body of the first [forEach] of [generateOledDisplays]: the write
    [oled_display.driver_name = [driver, transport, dimensions, "Driver"].join("")]. *)
Definition derive_driver_name (oled_display : OledDisplay.t) : OledDisplay.t :=
  OledDisplay.set_driver_name oled_display
    (JStr (join "" [ join_elem (OledDisplay.driver oled_display);
                     join_elem (OledDisplay.transport oled_display);
                     join_elem (OledDisplay.dimensions oled_display);
                     "Driver" ])).

(** [obj.prop] where [obj] may be [undefined]. *)
Definition prop_of {A B : Type} (obj : option A) (prop : A -> B) : result B :=
  match obj with
  | Some o => Ok (prop o)
  | None => TypeError
  end.

(** Returns the generated text (or the throw) and the entries as the call
    leaves them: each one carries the [driver_name] just written. *)
Definition generateOledDisplays (oled_displays : option (list OledDisplay.t))
    (context : Context) : result string * option (list OledDisplay.t) :=
  if absent oled_displays then (Ok "", oled_displays)
  else
    let oled_displays := map derive_driver_name (or_empty oled_displays) in
    let returned :=
      match context with
      | INCLUDE =>
          if existsb (fun oled_display =>
                        strict_eq_str (OledDisplay.driver oled_display) "SSD130x")
                     oled_displays
          then Ok ("#include " ++ dquote ++ "dev/oled_ssd130x.h" ++ dquote ++ nl)
          else Ok ""
      | DECLARATION =>
          let code := [ "// OLED display declaration" ] in
          let code :=
            forEach oled_displays (fun oled_display idx code =>
              push code ("OledDisplay<"
                         ++ ToString (OledDisplay.driver_name oled_display)
                         ++ "> display"
                         ++ (if Nat.eqb idx 0 then "" else nat_str idx) ++ ";"))
              code in
          Ok (join (nl ++ "    ") code)
      | INITIALIZATION =>
          let code := [ "// BEGIN - OLED display initialization" ] in
          code <- forEachE oled_displays (fun oled_display idx code =>
            let code := push code ("// Display " ++ nat_str idx) in
            let code :=
              push code ("OledDisplay<"
                         ++ ToString (OledDisplay.driver_name oled_display)
                         ++ ">::Config display_config" ++ nat_str idx ++ ";") in
            code <-
              (if strict_eq_str (OledDisplay.transport oled_display) "4WireSpi"
               then
                 let cfg := OledDisplay._4_wire_spi_config oled_display in
                 pin_dc <- prop_of cfg SpiConfig.pin_dc ;;
                 let code :=
                   push code ("display_config" ++ nat_str idx
                     ++ ".driver_config.transport_config.pin_config.dc = seed.GetPin("
                     ++ ToString pin_dc ++ ");") in
                 pin_reset <- prop_of cfg SpiConfig.pin_reset ;;
                 Ok (push code ("display_config" ++ nat_str idx
                     ++ ".driver_config.transport_config.pin_config.reset = seed.GetPin("
                     ++ ToString pin_reset ++ ");"))
               else if strict_eq_str (OledDisplay.transport oled_display) "I2c"
               then
                 let cfg := OledDisplay.i2c_config oled_display in
                 address <- prop_of cfg I2cConfig.address ;;
                 let code :=
                   push code ("display_config" ++ nat_str idx
                     ++ ".driver_config.transport_config.i2c_address = "
                     ++ ToString address ++ ";") in
                 peripheral <- prop_of cfg I2cConfig.peripheral ;;
                 let code :=
                   push code ("display_config" ++ nat_str idx
                     ++ ".driver_config.transport_config.i2c_config.periph = I2CHandle::Config::Peripheral::"
                     ++ ToString peripheral ++ ";") in
                 speed <- prop_of cfg I2cConfig.speed ;;
                 let code :=
                   push code ("display_config" ++ nat_str idx
                     ++ ".driver_config.transport_config.i2c_config.speed = I2CHandle::Config::Speed::"
                     ++ ToString speed ++ ";") in
                 pin_sda <- prop_of cfg I2cConfig.pin_sda ;;
                 let code :=
                   push code ("display_config" ++ nat_str idx
                     ++ ".driver_config.transport_config.i2c_config.pin_config.sda = seed.GetPin("
                     ++ ToString pin_sda ++ ");") in
                 pin_scl <- prop_of cfg I2cConfig.pin_scl ;;
                 Ok (push code ("display_config" ++ nat_str idx
                     ++ ".driver_config.transport_config.i2c_config.pin_config.scl = seed.GetPin("
                     ++ ToString pin_scl ++ ");"))
               else Ok code) ;;
            Ok (push code ("display"
                           ++ (if Nat.eqb idx 0 then "" else nat_str idx)
                           ++ ".Init(display_config" ++ nat_str idx ++ ");")))
            code ;;
          let code := push code "// END - OLED display initialization" in
          Ok (join (nl ++ "        ") code)
      | PROCESSING => Ok ""
      end in
    (returned, Some oled_displays).

Definition generateGateInputs (gate_inputs : option (list GateInput.t))
    (context : Context) : string :=
  if absent gate_inputs then ""
  else
    let gate_inputs := or_empty gate_inputs in
    match context with
    | DECLARATION =>
        let code :=
          [ "//gate_inputs declaration";
            "GateIn gate_inputs[" ++ nat_str (length gate_inputs) ++ "];" ] in
        let code :=
          forEach gate_inputs (fun gate_input idx code =>
            match GateInput.labels gate_input with
            | Some labels =>
                forEach labels (fun label _ code =>
                  push code ("GateIn& " ++ label ++ " = gate_inputs["
                             ++ nat_str idx ++ "];")) code
            | None => code
            end) code in
        join (nl ++ "    ") code
    | INITIALIZATION =>
        let code :=
          [ "// BEGIN - gate_inputs initialization";
            "dsy_gpio_pin gate_input_pin;" ] in
        let code :=
          forEach gate_inputs (fun gate_input idx code =>
            let code :=
              push code ("gate_input_pin = seed.GetPin("
                         ++ ToString (GateInput.pin gate_input) ++ ");") in
            push code ("gate_inputs[" ++ nat_str idx
                       ++ "].Init(&gate_input_pin);")) code in
        let code := push code "// END -  gate_inputs initialization" in
        join (nl ++ "        ") code
    | _ => ""
    end.

(** The two placeholders never look at their arguments; the template calls
    [generateGateOutputs] on the [gate_inputs] list, so the argument type is
    left open. *)
Definition generateGateOutputs {A : Type} (gate_outputs : option (list A))
    (context : Context) : string :=
  "".

Definition generateMidiHandlers {A : Type} (gate_outputs : option (list A))
    (context : Context) : string :=
  "".

(** ** The hardware description and the output template *)

Module HardwareDescription.
Record t : Type := mk
  { analog_controls : option (list AnalogControl.t);
    cv_inputs : option (list AnalogControl.t);
    cv_outputs : option (list CvOutput.t);
    encoders : option (list Encoder.t);
    gate_inputs : option (list GateInput.t);
    gate_outputs : option (list GateOutput.t);
    leds : option (list Led.t);
    midi_handlers : option (list MidiHandler.t);
    oled_displays : option (list OledDisplay.t);
    rgb_leds : option (list RgbLed.t);
    switches : option (list Switch.t) }.

(** The display entries are the only part of the document a generator
    writes to. *)
Definition set_oled_displays (hd : t) (v : option (list OledDisplay.t)) : t :=
  mk (analog_controls hd) (cv_inputs hd) (cv_outputs hd) (encoders hd)
     (gate_inputs hd) (gate_outputs hd) (leds hd) (midi_handlers hd)
     v (rgb_leds hd) (switches hd).

Definition set_gate_outputs (hd : t) (v : option (list GateOutput.t)) : t :=
  mk (analog_controls hd) (cv_inputs hd) (cv_outputs hd) (encoders hd)
     (gate_inputs hd) v (leds hd) (midi_handlers hd)
     (oled_displays hd) (rgb_leds hd) (switches hd).

Definition set_midi_handlers (hd : t) (v : option (list MidiHandler.t)) : t :=
  mk (analog_controls hd) (cv_inputs hd) (cv_outputs hd) (encoders hd)
     (gate_inputs hd) (gate_outputs hd) (leds hd) v
     (oled_displays hd) (rgb_leds hd) (switches hd).
End HardwareDescription.

(** The ten generators, named after the functions [generate<Kind>]. *)
Inductive Kind : Type :=
  | AnalogControls
  | CvOutputs
  | Encoders
  | GateInputs
  | GateOutputs
  | Leds
  | MidiHandlers
  | OledDisplays
  | RgbLeds
  | Switches.

(** A template literal is a sequence of literal chunks and interpolated
    expressions, evaluated from left to right. *)
Inductive piece : Type :=
  | Lit (s : string)
  | Gen (k : Kind) (c : Context).

(** One interpolated call of the template, with the arguments the template
    passes to that generator (the same ones at every place it is called). *)
Definition call (k : Kind) (context : Context)
    (hardware_description : HardwareDescription.t)
    : result string * HardwareDescription.t :=
  let hd := hardware_description in
  match k with
  | AnalogControls =>
      (Ok (generateAnalogControls (HardwareDescription.analog_controls hd)
             (HardwareDescription.cv_inputs hd) context), hd)
  | CvOutputs =>
      (Ok (generateCvOutputs (HardwareDescription.cv_outputs hd) context), hd)
  | Encoders =>
      (Ok (generateEncoders (HardwareDescription.encoders hd) context), hd)
  | GateInputs =>
      (Ok (generateGateInputs (HardwareDescription.gate_inputs hd) context), hd)
  | GateOutputs =>
      (Ok (generateGateOutputs (HardwareDescription.gate_inputs hd) context), hd)
  | Leds =>
      (Ok (generateLeds (HardwareDescription.leds hd) context), hd)
  | MidiHandlers =>
      (Ok (generateMidiHandlers (HardwareDescription.midi_handlers hd) context), hd)
  | OledDisplays =>
      let (returned, entries) :=
        generateOledDisplays (HardwareDescription.oled_displays hd) context in
      (returned, HardwareDescription.set_oled_displays hd entries)
  | RgbLeds =>
      (Ok (generateRgbLeds (HardwareDescription.rgb_leds hd) context), hd)
  | Switches =>
      (Ok (generateSwitches (HardwareDescription.switches hd) context), hd)
  end.

(** Literal text given line by line. *)
Definition lines (l : list string) : string := join nl l.

(** The template of [generateCustomHardwareImpl]. *)
Definition hardware_implementation : list piece :=
  [ Lit (lines [ ""; ""; "#include " ++ dquote ++ "daisy_seed.h" ++ dquote; "" ]);
    Gen OledDisplays INCLUDE;
    Lit (lines [ ""; ""; "using namespace daisy;"; ""; "typedef struct {";
                 "    DaisySeed seed;"; "  "; "    " ]);
    Gen AnalogControls DECLARATION;
    Lit (lines [ ""; ""; "    " ]);
    Gen CvOutputs DECLARATION;
    Lit (lines [ ""; "    "; "    " ]);
    Gen Encoders DECLARATION;
    Lit (lines [ ""; ""; "    " ]);
    Gen GateInputs DECLARATION;
    Lit (lines [ ""; ""; "    " ]);
    Gen GateOutputs DECLARATION;
    Lit (lines [ ""; ""; "    " ]);
    Gen Leds DECLARATION;
    Lit (lines [ ""; ""; "    " ]);
    Gen MidiHandlers DECLARATION;
    Lit (lines [ ""; ""; "    " ]);
    Gen OledDisplays DECLARATION;
    Lit (lines [ ""; "    "; "    " ]);
    Gen RgbLeds DECLARATION;
    Lit (lines [ ""; ""; "    " ]);
    Gen Switches DECLARATION;
    Lit (lines [ ""; ""; "    void Init(bool boost) "; "    {";
                 "        seed.Configure();"; "        seed.Init(boost);"; "";
                 "        " ]);
    Gen AnalogControls INITIALIZATION;
    Lit (lines [ ""; "        "; "        " ]);
    Gen CvOutputs INITIALIZATION;
    Lit (lines [ ""; ""; "        " ]);
    Gen GateInputs INITIALIZATION;
    Lit (lines [ ""; ""; "        " ]);
    Gen GateOutputs INITIALIZATION;
    Lit (lines [ ""; ""; "        " ]);
    Gen Encoders INITIALIZATION;
    Lit (lines [ ""; ""; "        " ]);
    Gen Leds INITIALIZATION;
    Lit (lines [ ""; ""; "        " ]);
    Gen MidiHandlers INITIALIZATION;
    Lit (lines [ ""; ""; "        " ]);
    Gen OledDisplays INITIALIZATION;
    Lit (lines [ ""; ""; "        " ]);
    Gen RgbLeds INITIALIZATION;
    Lit (lines [ ""; ""; "        " ]);
    Gen Switches INITIALIZATION;
    Lit (lines [ ""; "    }"; ""; "    void ProcessAnalogControls()"; "    {";
                 "        " ]);
    Gen AnalogControls PROCESSING;
    Lit (lines [ ""; "    }"; ""; "    void ProcessDigitalControls()"; "    {";
                 "        " ]);
    Gen Encoders PROCESSING;
    Lit (lines [ ""; ""; "        " ]);
    Gen Switches PROCESSING;
    Lit (lines [ ""; "    }"; ""; "    inline void ProcessAllControls()"; "    {";
                 "        ProcessAnalogControls();";
                 "        ProcessDigitalControls();"; "    }"; "";
                 "    void UpdateLeds()"; "    {"; "      " ]);
    Gen Leds PROCESSING;
    Lit (lines [ ""; "      " ]);
    Gen RgbLeds PROCESSING;
    Lit (lines [ ""; "    }"; ""; "  } Daisy;"; "  " ]) ].

(** Evaluation of a template: the pieces in order, each call seeing the
    document as the calls before it left it; a throw ends the evaluation. *)
Fixpoint render (template : list piece) (hd : HardwareDescription.t)
    : result string * HardwareDescription.t :=
  match template with
  | [] => (Ok "", hd)
  | Lit s :: rest =>
      let (r, hd') := render rest hd in
      (text <- r ;; Ok (s ++ text), hd')
  | Gen k c :: rest =>
      match call k c hd with
      | (Ok fragment, hd1) =>
          let (r, hd2) := render rest hd1 in
          (text <- r ;; Ok (fragment ++ text), hd2)
      | (TypeError, hd1) => (TypeError, hd1)
      end
  end.

(** Returns the C++ text (or the throw) and the document as the call
    leaves it. *)
Definition generateCustomHardwareImpl
    (hardware_description : HardwareDescription.t)
    : result string * HardwareDescription.t :=
  render hardware_implementation hardware_description.

(** ** Descriptions of the generated lines

    The definitions below say, entry by entry, which lines a fragment is
    made of.  The theorems relate them to the generators above. *)

(** [f idx x] for every entry [x], [idx] counting from [i]. *)
Fixpoint mapi_from {A B : Type} (i : nat) (f : nat -> A -> B) (l : list A)
    : list B :=
  match l with
  | [] => []
  | x :: rest => f i x :: mapi_from (S i) f rest
  end.

Definition mapi {A B : Type} (f : nat -> A -> B) (l : list A) : list B :=
  mapi_from 0 f l.

(** The revision of [custom_hardware.js] that has three contexts: its
    [generateAnalogControls] builds each fragment as one template literal
    around [all_controls.map((ctrl, idx) => ...).join("\n")]. *)
Module Earlier.
Inductive Context : Type :=
  | DECLARATION
  | INITIALIZATION
  | PROCESSING.

Definition generateAnalogControls
    (analog_controls cv_inputs : option (list AnalogControl.t))
    (context : Context) : string :=
  let all_controls :=
    (([] ++ or_empty analog_controls) ++ or_empty cv_inputs)%list in
  if Nat.eqb (length all_controls) 0 then ""
  else
    match context with
    | DECLARATION =>
        nl ++ "    //  analog_controls declaration" ++ nl
        ++ "    AnalogControl controls[" ++ nat_str (length all_controls) ++ "];"
    | INITIALIZATION =>
        nl ++ "        // BEGIN - analog_controls initialization" ++ nl
        ++ "        AdcChannelConfig cfg[" ++ nat_str (length all_controls)
        ++ "];" ++ nl
        ++ "        " ++ nl
        ++ join nl (mapi (fun idx ctrl =>
             "        cfg[" ++ nat_str idx ++ "].InitSingle(seed.GetPin("
             ++ ToString (AnalogControl.pin ctrl) ++ "));") all_controls)
        ++ nl
        ++ "        seed.adc.Init(cfg, " ++ nat_str (length all_controls)
        ++ ");" ++ nl
        ++ "        " ++ nl
        ++ join nl (mapi (fun idx ctrl =>
             "        controls[" ++ nat_str idx ++ "].Init(seed.adc.GetPtr("
             ++ nat_str idx ++ "), seed.AudioCallbackRate(), "
             ++ bool_str (ToBoolean (AnalogControl.flip ctrl)) ++ ", "
             ++ bool_str (ToBoolean (AnalogControl.invert ctrl)) ++ ");")
             all_controls)
        ++ nl
        ++ "        seed.adc.Start();" ++ nl
        ++ "        // END - analog_controls initialization"
    | PROCESSING =>
        nl ++ "          // process analog_controls" ++ nl
        ++ "          " ++ nl
        ++ join nl (mapi (fun idx ctrl =>
             "        controls[" ++ nat_str idx ++ "].Process();")
             all_controls)
    end.
End Earlier.

(** Naming convention: index 0 yields [base]; a later index yields [base]
    followed by the index. *)
Definition name (base : string) (index : nat) : string :=
  match index with
  | O => base
  | S _ => base ++ nat_str index
  end.

(** One reference [Type& alias = array[idx];] per alias, in list order. *)
Definition alias_refs (type array : string) (idx : nat)
    (labels : option (list string)) : list string :=
  map (fun label => type ++ "& " ++ label ++ " = " ++ array ++ "["
                    ++ nat_str idx ++ "];")
      (or_empty labels).

(** The per-entry lines of the merged analog kind. *)
Definition analog_alias_refs (idx : nat) (e : AnalogControl.t) : list string :=
  alias_refs "AnalogControl" "controls" idx (AnalogControl.labels e).

Definition analog_cfg_line (idx : nat) (e : AnalogControl.t) : string :=
  "cfg[" ++ nat_str idx ++ "].InitSingle(seed.GetPin("
  ++ ToString (AnalogControl.pin e) ++ "));".

Definition analog_init_line (idx : nat) (e : AnalogControl.t) : string :=
  "controls[" ++ nat_str idx ++ "].Init(seed.adc.GetPtr(" ++ nat_str idx
  ++ "), seed.AudioCallbackRate(), "
  ++ bool_str (ToBoolean (AnalogControl.flip e)) ++ ", "
  ++ bool_str (ToBoolean (AnalogControl.invert e)) ++ ");".

Definition analog_process_line (idx : nat) (e : AnalogControl.t) : string :=
  "controls[" ++ nat_str idx ++ "].Process();".

(** The fixed fragment that initializes the two DAC channels. *)
Definition dac_init_fragment : string :=
  join (nl ++ "        ")
    [ "// BEGIN - cv_outputs initialization";
      "DacHandle::Config dac_cfg;";
      "dac_cfg.bitdepth   = DacHandle::BitDepth::BITS_12;";
      "dac_cfg.buff_state = DacHandle::BufferState::ENABLED;";
      "dac_cfg.mode       = DacHandle::Mode::POLLING;";
      "dac_cfg.chn        = DacHandle::Channel::BOTH;";
      "seed.dac.Init(dac_cfg);";
      "seed.dac.WriteValue(DacHandle::Channel::BOTH, 0);";
      "// END - cv_outputs initialization" ].

(** All the results of a list, or the first throw. *)
Fixpoint sequenceE {A : Type} (l : list (result A)) : result (list A) :=
  match l with
  | [] => Ok []
  | r :: rest => a <- r ;; (rest' <- sequenceE rest ;; Ok (a :: rest'))
  end.

(** The per-entry lines of the display kind; the entry is read after its
    [driver_name] has been written. *)
Definition display_decl_line (idx : nat) (d : OledDisplay.t) : string :=
  "OledDisplay<" ++ ToString (OledDisplay.driver_name d) ++ "> "
  ++ name "display" idx ++ ";".

Definition display_transport_lines (idx : nat) (d : OledDisplay.t)
    : result (list string) :=
  let config := "display_config" ++ nat_str idx in
  if strict_eq_str (OledDisplay.transport d) "4WireSpi" then
    match OledDisplay._4_wire_spi_config d with
    | Some cfg =>
        Ok [ config
               ++ ".driver_config.transport_config.pin_config.dc = seed.GetPin("
               ++ ToString (SpiConfig.pin_dc cfg) ++ ");";
             config
               ++ ".driver_config.transport_config.pin_config.reset = seed.GetPin("
               ++ ToString (SpiConfig.pin_reset cfg) ++ ");" ]
    | None => TypeError
    end
  else if strict_eq_str (OledDisplay.transport d) "I2c" then
    match OledDisplay.i2c_config d with
    | Some cfg =>
        Ok [ config ++ ".driver_config.transport_config.i2c_address = "
               ++ ToString (I2cConfig.address cfg) ++ ";";
             config
               ++ ".driver_config.transport_config.i2c_config.periph = I2CHandle::Config::Peripheral::"
               ++ ToString (I2cConfig.peripheral cfg) ++ ";";
             config
               ++ ".driver_config.transport_config.i2c_config.speed = I2CHandle::Config::Speed::"
               ++ ToString (I2cConfig.speed cfg) ++ ";";
             config
               ++ ".driver_config.transport_config.i2c_config.pin_config.sda = seed.GetPin("
               ++ ToString (I2cConfig.pin_sda cfg) ++ ");";
             config
               ++ ".driver_config.transport_config.i2c_config.pin_config.scl = seed.GetPin("
               ++ ToString (I2cConfig.pin_scl cfg) ++ ");" ]
    | None => TypeError
    end
  else Ok [].

Definition display_init_block (idx : nat) (d : OledDisplay.t)
    : result (list string) :=
  transport_lines <- display_transport_lines idx d ;;
  let header :=
    [ "// Display " ++ nat_str idx;
      "OledDisplay<" ++ ToString (OledDisplay.driver_name d)
        ++ ">::Config display_config" ++ nat_str idx ++ ";" ] in
  let init :=
    [ name "display" idx ++ ".Init(display_config" ++ nat_str idx ++ ");" ] in
  Ok (header ++ transport_lines ++ init)%list.

(** Sample display entries. *)
Definition ssd130x_i2c_128x64 : OledDisplay.t :=
  OledDisplay.mk (JStr "SSD130x") (JStr "I2c") (JStr "128x64") None
    (Some (I2cConfig.mk (JNum 60) (JStr "I2C_1") (JStr "I2C_1MHZ")
             (JNum 12) (JNum 11)))
    JUndefined.

Definition ssd130x_spi_128x64 : OledDisplay.t :=
  OledDisplay.mk (JStr "SSD130x") (JStr "4WireSpi") (JStr "128x64")
    (Some (SpiConfig.mk (JNum 9) (JNum 30))) None JUndefined.

(** The display entry with the three selector fields only: no transport
    configuration object. *)
Definition ssd130x_i2c_bare : OledDisplay.t :=
  OledDisplay.mk (JStr "SSD130x") (JStr "I2c") (JStr "128x64") None None
    JUndefined.

(** ** Descriptions of the assembled text *)

(** The text of one piece of the template, on a given document. *)
Definition piece_text (hd : HardwareDescription.t) (p : piece) : result string :=
  match p with
  | Lit s => Ok s
  | Gen k c => fst (call k c hd)
  end.

(** Concatenation in list order, or the first throw. *)
Fixpoint concatE (l : list (result string)) : result string :=
  match l with
  | [] => Ok ""
  | r :: rest => s <- r ;; (text <- concatE rest ;; Ok (s ++ text))
  end.

Definition Context_eqb (c c' : Context) : bool :=
  match c, c' with
  | INCLUDE, INCLUDE
  | DECLARATION, DECLARATION
  | INITIALIZATION, INITIALIZATION
  | PROCESSING, PROCESSING => true
  | _, _ => false
  end.

(** The generators a template calls for one phase, in the order of their
    fragments in the text. *)
Fixpoint fragments_of (c : Context) (template : list piece) : list Kind :=
  match template with
  | [] => []
  | Lit _ :: rest => fragments_of c rest
  | Gen k c' :: rest =>
      if Context_eqb c c' then k :: fragments_of c rest
      else fragments_of c rest
  end.

(** Position of the first occurrence of a fragment in a text. *)
Definition position (fragment : string) (text : result string) : option nat :=
  match text with
  | Ok text => String.index 0 fragment text
  | TypeError => None
  end.

(** The document with the [driver_name] of its display entry at index
    [idx] replaced by [names idx]: any state the entries may be found in. *)
Definition with_driver_names (names : nat -> jsval) (hd : HardwareDescription.t)
    : HardwareDescription.t :=
  HardwareDescription.set_oled_displays hd
    (option_map
       (mapi (fun idx d => OledDisplay.set_driver_name d (names idx)))
       (HardwareDescription.oled_displays hd)).

(** Two lists of display entries that differ in [driver_name] at most. *)
Definition same_displays (o o' : option (list OledDisplay.t)) : Prop :=
  option_map (map derive_driver_name) o = option_map (map derive_driver_name) o'.

(** Two documents that differ in the [driver_name] of display entries at
    most. *)
Definition same_document (hd hd' : HardwareDescription.t) : Prop :=
  HardwareDescription.set_oled_displays hd None
  = HardwareDescription.set_oled_displays hd' None
  /\ same_displays (HardwareDescription.oled_displays hd)
                   (HardwareDescription.oled_displays hd').

(** The entry carries the configuration object that its transport makes
    the initialization read. *)
Definition transport_config_present (d : OledDisplay.t) : bool :=
  if strict_eq_str (OledDisplay.transport d) "4WireSpi" then
    match OledDisplay._4_wire_spi_config d with Some _ => true | None => false end
  else if strict_eq_str (OledDisplay.transport d) "I2c" then
    match OledDisplay.i2c_config d with Some _ => true | None => false end
  else true.

(** A list with no entries: missing, or present and empty. *)
Definition no_entries {A : Type} (missing : bool) : option (list A) :=
  if missing then None else Some [].

(** Sample documents. *)
Definition no_peripherals : HardwareDescription.t :=
  HardwareDescription.mk None None None None None None None None None None None.

Definition one_encoder_one_gate_input : HardwareDescription.t :=
  HardwareDescription.mk None None None
    (Some [ Encoder.mk (JNum 1) (JNum 2) (JNum 3) None ])
    (Some [ GateInput.mk (JNum 20) None ])
    None None None None None None.

Definition one_display : HardwareDescription.t :=
  HardwareDescription.mk None None None None None None None None
    (Some [ ssd130x_i2c_128x64 ]) None None.

Definition two_analog_controls : list AnalogControl.t :=
  [ AnalogControl.mk (JNum 15) JUndefined JUndefined None;
    AnalogControl.mk (JNum 16) JUndefined (JBool true) None ].

Definition one_cv_input : list AnalogControl.t :=
  [ AnalogControl.mk (JNum 17) (JBool true) JUndefined None ].

Definition five_cv_outputs : list CvOutput.t :=
  [ CvOutput.mk (JNum 1) None; CvOutput.mk (JNum 2) None;
    CvOutput.mk (JNum 3) None; CvOutput.mk (JNum 4) None;
    CvOutput.mk (JNum 5) None ].

Definition two_cv_outputs : list CvOutput.t :=
  [ CvOutput.mk JUndefined (Some ["a"]); CvOutput.mk (JNum 7) None ].

(** ** Descriptions of the other per-entry lines *)

Definition encoder_init_line (idx : nat) (e : Encoder.t) : string :=
  "encoders[" ++ nat_str idx ++ "].Init(seed.GetPin("
  ++ ToString (Encoder.pin_a e) ++ "), seed.GetPin("
  ++ ToString (Encoder.pin_b e) ++ "), seed.GetPin("
  ++ ToString (Encoder.pin_switch e) ++ "), seed.AudioCallbackRate());".

Definition encoder_process_line (idx : nat) (e : Encoder.t) : string :=
  "encoders[" ++ nat_str idx ++ "].Debounce();".

Definition switch_init_line (idx : nat) (e : Switch.t) : string :=
  "switches[" ++ nat_str idx ++ "].Init(seed.GetPin("
  ++ ToString (Switch.pin e) ++ "), seed.AudioCallbackRate(), Switch::Type::"
  ++ ToString (Switch.type e) ++ ", Switch::Polarity::"
  ++ ToString (Switch.polarity e) ++ ", Switch::Pull::"
  ++ ToString (Switch.pull e) ++ ");".

Definition switch_process_line (idx : nat) (e : Switch.t) : string :=
  "switches[" ++ nat_str idx ++ "].Debounce();".

Definition led_init_line (idx : nat) (e : Led.t) : string :=
  "leds[" ++ nat_str idx ++ "].Init(seed.GetPin(" ++ ToString (Led.pin e)
  ++ "), " ++ bool_str (ToBoolean (Led.invert e)) ++ ");".

Definition led_process_line (idx : nat) (e : Led.t) : string :=
  "leds[" ++ nat_str idx ++ "].Update();".

Definition rgb_led_init_line (idx : nat) (e : RgbLed.t) : string :=
  "rgb_leds[" ++ nat_str idx ++ "].Init(seed.GetPin("
  ++ ToString (RgbLed.pin_r e) ++ "), seed.GetPin("
  ++ ToString (RgbLed.pin_g e) ++ "), seed.GetPin("
  ++ ToString (RgbLed.pin_b e) ++ "), "
  ++ bool_str (ToBoolean (RgbLed.invert e)) ++ ");".

Definition rgb_led_process_line (idx : nat) (e : RgbLed.t) : string :=
  "rgb_leds[" ++ nat_str idx ++ "].Update();".

(** The pin handle is assigned, then the entry is initialized with it. *)
Definition gate_input_init_lines (idx : nat) (e : GateInput.t) : list string :=
  [ "gate_input_pin = seed.GetPin(" ++ ToString (GateInput.pin e) ++ ");";
    "gate_inputs[" ++ nat_str idx ++ "].Init(&gate_input_pin);" ].

(** The header that the SSD130x driver family needs. *)
Definition ssd130x_include : string :=
  "#include " ++ dquote ++ "dev/oled_ssd130x.h" ++ dquote ++ nl.

(** The display entry with the configuration objects that its transport
    does not select replaced by arbitrary ones. *)
Definition with_unselected_configs (spi : nat -> option SpiConfig.t)
    (i2c : nat -> option I2cConfig.t) (idx : nat) (d : OledDisplay.t)
    : OledDisplay.t :=
  if strict_eq_str (OledDisplay.transport d) "4WireSpi" then
    OledDisplay.mk (OledDisplay.driver d) (OledDisplay.transport d)
      (OledDisplay.dimensions d) (OledDisplay._4_wire_spi_config d) (i2c idx)
      (OledDisplay.driver_name d)
  else if strict_eq_str (OledDisplay.transport d) "I2c" then
    OledDisplay.mk (OledDisplay.driver d) (OledDisplay.transport d)
      (OledDisplay.dimensions d) (spi idx) (OledDisplay.i2c_config d)
      (OledDisplay.driver_name d)
  else
    OledDisplay.mk (OledDisplay.driver d) (OledDisplay.transport d)
      (OledDisplay.dimensions d) (spi idx) (i2c idx)
      (OledDisplay.driver_name d).

(** The entries with [flip] and [invert] replaced by their truth values. *)
Definition analog_truth_values (e : AnalogControl.t) : AnalogControl.t :=
  AnalogControl.mk (AnalogControl.pin e)
    (JBool (ToBoolean (AnalogControl.flip e)))
    (JBool (ToBoolean (AnalogControl.invert e)))
    (AnalogControl.labels e).

Definition led_truth_value (e : Led.t) : Led.t :=
  Led.mk (Led.pin e) (JBool (ToBoolean (Led.invert e))) (Led.labels e).

Definition rgb_led_truth_value (e : RgbLed.t) : RgbLed.t :=
  RgbLed.mk (RgbLed.pin_r e) (RgbLed.pin_g e) (RgbLed.pin_b e)
    (JBool (ToBoolean (RgbLed.invert e))) (RgbLed.labels e).


Definition set_cv_outputs (hd : HardwareDescription.t)
    (v : option (list CvOutput.t)) : HardwareDescription.t :=
  HardwareDescription.mk
    (HardwareDescription.analog_controls hd) (HardwareDescription.cv_inputs hd)
    v (HardwareDescription.encoders hd) (HardwareDescription.gate_inputs hd)
    (HardwareDescription.gate_outputs hd) (HardwareDescription.leds hd)
    (HardwareDescription.midi_handlers hd) (HardwareDescription.oled_displays hd)
    (HardwareDescription.rgb_leds hd) (HardwareDescription.switches hd).

(** The literal text of a template: what is left when every interpolated
    fragment is empty. *)
Fixpoint literal_text (template : list piece) : string :=
  match template with
  | [] => ""
  | Lit s :: rest => s ++ literal_text rest
  | Gen _ _ :: rest => literal_text rest
  end.

(** Every list that a generator reads is missing or empty. *)
Definition no_fragments (hd : HardwareDescription.t) : bool :=
  absent (HardwareDescription.analog_controls hd)
  && absent (HardwareDescription.cv_inputs hd)
  && absent (HardwareDescription.cv_outputs hd)
  && absent (HardwareDescription.encoders hd)
  && absent (HardwareDescription.gate_inputs hd)
  && absent (HardwareDescription.leds hd)
  && absent (HardwareDescription.oled_displays hd)
  && absent (HardwareDescription.rgb_leds hd)
  && absent (HardwareDescription.switches hd).

(** The first and the last literal chunk of the template. *)
Definition artifact_header : string :=
  lines [ ""; ""; "#include " ++ dquote ++ "daisy_seed.h" ++ dquote; "" ].

Definition artifact_footer : string :=
  lines [ ""; "    }"; ""; "  } Daisy;"; "  " ].

(** Sample entries and documents for the properties below. *)
Definition ssd1327_spi_bare : OledDisplay.t :=
  OledDisplay.mk (JStr "SSD1327") (JStr "4WireSpi") (JStr "128x128") None None
    JUndefined.

Definition one_bare_display : HardwareDescription.t :=
  HardwareDescription.mk None None None None None None None None
    (Some [ ssd130x_i2c_bare ]) None None.

(** ** The generators on entries of any shape

    The record types above hold the entries a well-formed document has.
    The code itself checks nothing, so the generators that take no part in
    the in-place write are given a second time, on lists whose entries are
    arbitrary values: [null], scalars, arrays, objects with any fields.
    Only the list itself is still missing or an array. *)
Module Raw.

(** A value of a document: what [JSON.parse] can give, or [undefined].  An
    object lists its own properties, each key once.  [VNum] stands for
    integer-valued numbers, as [JNum] does. *)
#[local] Unset Elimination Schemes.
Inductive value : Type :=
  | VUndefined
  | VNull
  | VBool (b : bool)
  | VNum (n : Z)
  | VStr (s : string)
  | VArr (elements : list value)
  | VObj (properties : list (string * value)).
#[local] Set Elimination Schemes.

Fixpoint lookup (p : string) (properties : list (string * value)) : value :=
  match properties with
  | [] => VUndefined
  | (k, v) :: rest => if String.eqb k p then v else lookup p rest
  end.

Definition has_own (p : string) (properties : list (string * value)) : bool :=
  existsb (fun kv => String.eqb (fst kv) p) properties.

(** [!!v]. *)
Definition truthy (v : value) : bool :=
  match v with
  | VUndefined | VNull => false
  | VBool b => b
  | VNum n => negb (Z.eqb n 0)
  | VStr s => negb (String.eqb s "")
  | VArr _ | VObj _ => true
  end.

(** [v.p] for the property names the generators read ([labels], [pin],
    [flip], ...): none of them is inherited from a prototype, so an object
    gives its own property or [undefined], every other value but
    [undefined] and [null] gives [undefined], and those two throw. *)
Definition get (v : value) (p : string) : result value :=
  match v with
  | VUndefined | VNull => TypeError
  | VObj properties => Ok (lookup p properties)
  | _ => Ok VUndefined
  end.

(** [v.forEach((x, idx) => body)]: only an array has a [forEach] that can
    be called. *)
Definition forEachV {St : Type} (v : value)
    (body : value -> nat -> St -> result St) (s : St) : result St :=
  match v with
  | VArr elements => forEachE elements body s
  | _ => TypeError
  end.

(** [`${v}`]: ToString.  An array is its elements joined by commas,
    [undefined] and [null] elements giving the empty string; an object is
    [[object Object]] unless it has a property [toString] of its own, which
    no document can make callable, so that the conversion throws. *)
Fixpoint ToString (v : value) : result string :=
  match v with
  | VUndefined => Ok "undefined"
  | VNull => Ok "null"
  | VBool b => Ok (bool_str b)
  | VNum n => Ok (NilZero.string_of_int (Z.to_int n))
  | VStr s => Ok s
  | VArr elements =>
      texts <-
        (fix each (l : list value) : result (list string) :=
           match l with
           | [] => Ok []
           | x :: rest =>
               text <- match x with
                       | VUndefined | VNull => Ok ""
                       | _ => ToString x
                       end ;;
               (texts <- each rest ;; Ok (text :: texts))
           end) elements ;;
      Ok (join "," texts)
  | VObj properties =>
      if has_own "toString" properties then TypeError
      else Ok "[object Object]"
  end.

Definition generateAnalogControls
    (analog_controls cv_inputs : option (list value))
    (context : Context) : result string :=
  let all_controls :=
    (([] ++ or_empty analog_controls) ++ or_empty cv_inputs)%list in
  if Nat.eqb (length all_controls) 0 then Ok ""
  else
    match context with
    | DECLARATION =>
        let code :=
          [ "// analog_controls declaration";
            "AnalogControl controls[" ++ nat_str (length all_controls) ++ "];" ] in
        code <-
          forEachE all_controls (fun analog_control idx code =>
            labels <- get analog_control "labels" ;;
            if truthy labels then
              forEachV labels (fun label _ code =>
                label <- ToString label ;;
                Ok (push code ("AnalogControl& " ++ label ++ " = controls["
                               ++ nat_str idx ++ "];"))) code
            else Ok code) code ;;
        Ok (join (nl ++ "    ") code)
    | INITIALIZATION =>
        let code :=
          [ "// BEGIN - analog_controls initialization";
            "AdcChannelConfig cfg[" ++ nat_str (length all_controls) ++ "];" ] in
        code <-
          forEachE all_controls (fun analog_control idx code =>
            pin <- get analog_control "pin" ;;
            pin <- ToString pin ;;
            Ok (push code ("cfg[" ++ nat_str idx ++ "].InitSingle(seed.GetPin("
                           ++ pin ++ "));"))) code ;;
        let code :=
          push code ("seed.adc.Init(cfg, " ++ nat_str (length all_controls) ++ ");") in
        code <-
          forEachE all_controls (fun analog_control idx code =>
            flip <- get analog_control "flip" ;;
            invert <- get analog_control "invert" ;;
            Ok (push code ("controls[" ++ nat_str idx ++ "].Init(seed.adc.GetPtr("
                           ++ nat_str idx ++ "), seed.AudioCallbackRate(), "
                           ++ bool_str (truthy flip) ++ ", "
                           ++ bool_str (truthy invert) ++ ");"))) code ;;
        let code := push code "seed.adc.Start();" in
        let code := push code "// END - analog_controls initialization" in
        Ok (join (nl ++ "        ") code)
    | PROCESSING =>
        let code := [ "// process analog_controls" ] in
        code <-
          forEachE all_controls (fun analog_control idx code =>
            Ok (push code ("controls[" ++ nat_str idx ++ "].Process();"))) code ;;
        Ok (join (nl ++ "        ") code)
    | INCLUDE => Ok ""
    end.

Definition generateCvOutputs (cv_outputs : option (list value))
    (context : Context) : result string :=
  if absent cv_outputs then Ok ""
  else
    let cv_outputs :=
      if Nat.ltb 2 (length (or_empty cv_outputs))
      then firstn 2 (or_empty cv_outputs)
      else or_empty cv_outputs in
    match context with
    | INITIALIZATION =>
        let code :=
          [ "// BEGIN - cv_outputs initialization";
            "DacHandle::Config dac_cfg;";
            "dac_cfg.bitdepth   = DacHandle::BitDepth::BITS_12;";
            "dac_cfg.buff_state = DacHandle::BufferState::ENABLED;";
            "dac_cfg.mode       = DacHandle::Mode::POLLING;";
            "dac_cfg.chn        = DacHandle::Channel::BOTH;";
            "seed.dac.Init(dac_cfg);";
            "seed.dac.WriteValue(DacHandle::Channel::BOTH, 0);";
            "// END - cv_outputs initialization" ] in
        Ok (join (nl ++ "        ") code)
    | _ => Ok ""
    end.

Definition generateEncoders (encoders : option (list value))
    (context : Context) : result string :=
  if absent encoders then Ok ""
  else
    let encoders := or_empty encoders in
    match context with
    | DECLARATION =>
        let code :=
          [ "//  encoders declaration";
            "Encoder encoders[" ++ nat_str (length encoders) ++ "];";
            "Encoder& encoder = encoders[0];" ] in
        code <-
          forEachE encoders (fun encoder idx code =>
            labels <- get encoder "labels" ;;
            if truthy labels then
              forEachV labels (fun label _ code =>
                label <- ToString label ;;
                Ok (push code ("Encoder& " ++ label ++ " = encoders["
                               ++ nat_str idx ++ "];"))) code
            else Ok code) code ;;
        Ok (join (nl ++ "    ") code)
    | INITIALIZATION =>
        let code := [ "// BEGIN - encoders initialization" ] in
        code <-
          forEachE encoders (fun encoder idx code =>
            pin_a <- get encoder "pin_a" ;;
            pin_a <- ToString pin_a ;;
            pin_b <- get encoder "pin_b" ;;
            pin_b <- ToString pin_b ;;
            pin_switch <- get encoder "pin_switch" ;;
            pin_switch <- ToString pin_switch ;;
            Ok (push code ("encoders[" ++ nat_str idx ++ "].Init(seed.GetPin("
                           ++ pin_a ++ "), seed.GetPin("
                           ++ pin_b ++ "), seed.GetPin("
                           ++ pin_switch
                           ++ "), seed.AudioCallbackRate());"))) code ;;
        let code := push code "// END - encoders initialization" in
        Ok (join (nl ++ "        ") code)
    | PROCESSING =>
        let code := [ "// process encoders" ] in
        code <-
          forEachE encoders (fun encoder idx code =>
            Ok (push code ("encoders[" ++ nat_str idx ++ "].Debounce();"))) code ;;
        Ok (join (nl ++ "        ") code)
    | INCLUDE => Ok ""
    end.

Definition generateSwitches (switches : option (list value))
    (context : Context) : result string :=
  if absent switches then Ok ""
  else
    let switches := or_empty switches in
    match context with
    | DECLARATION =>
        let code :=
          [ "//  switches declaration";
            "Switch switches[" ++ nat_str (length switches) ++ "];" ] in
        code <-
          forEachE switches (fun switch_ idx code =>
            labels <- get switch_ "labels" ;;
            if truthy labels then
              forEachV labels (fun label _ code =>
                label <- ToString label ;;
                Ok (push code ("Switch& " ++ label ++ " = switches["
                               ++ nat_str idx ++ "];"))) code
            else Ok code) code ;;
        Ok (join (nl ++ "    ") code)
    | INITIALIZATION =>
        let code := [ "// BEGIN - switches initialization" ] in
        code <-
          forEachE switches (fun _switch idx code =>
            pin <- get _switch "pin" ;;
            pin <- ToString pin ;;
            type <- get _switch "type" ;;
            type <- ToString type ;;
            polarity <- get _switch "polarity" ;;
            polarity <- ToString polarity ;;
            pull <- get _switch "pull" ;;
            pull <- ToString pull ;;
            Ok (push code ("switches[" ++ nat_str idx ++ "].Init(seed.GetPin("
                           ++ pin
                           ++ "), seed.AudioCallbackRate(), Switch::Type::"
                           ++ type ++ ", Switch::Polarity::"
                           ++ polarity ++ ", Switch::Pull::"
                           ++ pull ++ ");"))) code ;;
        let code := push code "// END - switches initialization" in
        Ok (join (nl ++ "        ") code)
    | PROCESSING =>
        let code := [ "// process switches" ] in
        code <-
          forEachE switches (fun _switch idx code =>
            Ok (push code ("switches[" ++ nat_str idx ++ "].Debounce();"))) code ;;
        Ok (join (nl ++ "        ") code)
    | INCLUDE => Ok ""
    end.

Definition generateLeds (leds : option (list value)) (context : Context)
    : result string :=
  if absent leds then Ok ""
  else
    let leds := or_empty leds in
    match context with
    | DECLARATION =>
        let code :=
          [ "//  leds declaration";
            "Led leds[" ++ nat_str (length leds) ++ "];" ] in
        code <-
          forEachE leds (fun led idx code =>
            labels <- get led "labels" ;;
            if truthy labels then
              forEachV labels (fun label _ code =>
                label <- ToString label ;;
                Ok (push code ("Led& " ++ label ++ " = leds["
                               ++ nat_str idx ++ "];"))) code
            else Ok code) code ;;
        Ok (join (nl ++ "    ") code)
    | INITIALIZATION =>
        let code := [ "// BEGIN - leds initialization" ] in
        code <-
          forEachE leds (fun led idx code =>
            pin <- get led "pin" ;;
            pin <- ToString pin ;;
            invert <- get led "invert" ;;
            Ok (push code ("leds[" ++ nat_str idx ++ "].Init(seed.GetPin("
                           ++ pin ++ "), "
                           ++ bool_str (truthy invert) ++ ");"))) code ;;
        let code := push code "// END - leds initialization" in
        Ok (join (nl ++ "        ") code)
    | PROCESSING =>
        let code := [ "// process leds" ] in
        code <-
          forEachE leds (fun led idx code =>
            Ok (push code ("leds[" ++ nat_str idx ++ "].Update();"))) code ;;
        Ok (join (nl ++ "        ") code)
    | INCLUDE => Ok ""
    end.

Definition generateRgbLeds (rgb_leds : option (list value))
    (context : Context) : result string :=
  if absent rgb_leds then Ok ""
  else
    let rgb_leds := or_empty rgb_leds in
    match context with
    | DECLARATION =>
        let code :=
          [ "//  rgb_leds declaration";
            "RgbLed rgb_leds[" ++ nat_str (length rgb_leds) ++ "];" ] in
        code <-
          forEachE rgb_leds (fun rgb_led idx code =>
            labels <- get rgb_led "labels" ;;
            if truthy labels then
              forEachV labels (fun label _ code =>
                label <- ToString label ;;
                Ok (push code ("RgbLed& " ++ label ++ " = rgb_leds["
                               ++ nat_str idx ++ "];"))) code
            else Ok code) code ;;
        Ok (join (nl ++ "    ") code)
    | INITIALIZATION =>
        let code := [ "// BEGIN - rgb_leds initialization" ] in
        code <-
          forEachE rgb_leds (fun rgb_led idx code =>
            pin_r <- get rgb_led "pin_r" ;;
            pin_r <- ToString pin_r ;;
            pin_g <- get rgb_led "pin_g" ;;
            pin_g <- ToString pin_g ;;
            pin_b <- get rgb_led "pin_b" ;;
            pin_b <- ToString pin_b ;;
            invert <- get rgb_led "invert" ;;
            Ok (push code ("rgb_leds[" ++ nat_str idx ++ "].Init(seed.GetPin("
                           ++ pin_r ++ "), seed.GetPin("
                           ++ pin_g ++ "), seed.GetPin("
                           ++ pin_b ++ "), "
                           ++ bool_str (truthy invert) ++ ");"))) code ;;
        let code := push code "// END - rgb_leds initialization" in
        Ok (join (nl ++ "        ") code)
    | PROCESSING =>
        let code := [ "// process rgb_leds" ] in
        code <-
          forEachE rgb_leds (fun rgb_led idx code =>
            Ok (push code ("rgb_leds[" ++ nat_str idx ++ "].Update();"))) code ;;
        Ok (join (nl ++ "        ") code)
    | INCLUDE => Ok ""
    end.

Definition generateGateInputs (gate_inputs : option (list value))
    (context : Context) : result string :=
  if absent gate_inputs then Ok ""
  else
    let gate_inputs := or_empty gate_inputs in
    match context with
    | DECLARATION =>
        let code :=
          [ "//gate_inputs declaration";
            "GateIn gate_inputs[" ++ nat_str (length gate_inputs) ++ "];" ] in
        code <-
          forEachE gate_inputs (fun gate_input idx code =>
            labels <- get gate_input "labels" ;;
            if truthy labels then
              forEachV labels (fun label _ code =>
                label <- ToString label ;;
                Ok (push code ("GateIn& " ++ label ++ " = gate_inputs["
                               ++ nat_str idx ++ "];"))) code
            else Ok code) code ;;
        Ok (join (nl ++ "    ") code)
    | INITIALIZATION =>
        let code :=
          [ "// BEGIN - gate_inputs initialization";
            "dsy_gpio_pin gate_input_pin;" ] in
        code <-
          forEachE gate_inputs (fun gate_input idx code =>
            pin <- get gate_input "pin" ;;
            pin <- ToString pin ;;
            let code :=
              push code ("gate_input_pin = seed.GetPin(" ++ pin ++ ");") in
            Ok (push code ("gate_inputs[" ++ nat_str idx
                           ++ "].Init(&gate_input_pin);"))) code ;;
        let code := push code "// END -  gate_inputs initialization" in
        Ok (join (nl ++ "        ") code)
    | _ => Ok ""
    end.

Definition generateGateOutputs (gate_outputs : option (list value))
    (context : Context) : result string :=
  Ok "".

Definition generateMidiHandlers (gate_outputs : option (list value))
    (context : Context) : result string :=
  Ok "".

(** The values that the typed entries stand for. *)
Definition scalar (v : jsval) : value :=
  match v with
  | JUndefined => VUndefined
  | JNull => VNull
  | JBool b => VBool b
  | JNum n => VNum n
  | JStr s => VStr s
  end.

Definition labels_value (labels : option (list string)) : value :=
  match labels with
  | Some labels => VArr (map VStr labels)
  | None => VUndefined
  end.

Definition of_analog_control (e : AnalogControl.t) : value :=
  VObj [ ("pin", scalar (AnalogControl.pin e));
         ("flip", scalar (AnalogControl.flip e));
         ("invert", scalar (AnalogControl.invert e));
         ("labels", labels_value (AnalogControl.labels e)) ].

Definition of_cv_output (e : CvOutput.t) : value :=
  VObj [ ("pin", scalar (CvOutput.pin e));
         ("labels", labels_value (CvOutput.labels e)) ].

Definition of_encoder (e : Encoder.t) : value :=
  VObj [ ("pin_a", scalar (Encoder.pin_a e));
         ("pin_b", scalar (Encoder.pin_b e));
         ("pin_switch", scalar (Encoder.pin_switch e));
         ("labels", labels_value (Encoder.labels e)) ].

Definition of_switch (e : Switch.t) : value :=
  VObj [ ("pin", scalar (Switch.pin e));
         ("type", scalar (Switch.type e));
         ("polarity", scalar (Switch.polarity e));
         ("pull", scalar (Switch.pull e));
         ("labels", labels_value (Switch.labels e)) ].

Definition of_led (e : Led.t) : value :=
  VObj [ ("pin", scalar (Led.pin e));
         ("invert", scalar (Led.invert e));
         ("labels", labels_value (Led.labels e)) ].

Definition of_rgb_led (e : RgbLed.t) : value :=
  VObj [ ("pin_r", scalar (RgbLed.pin_r e));
         ("pin_g", scalar (RgbLed.pin_g e));
         ("pin_b", scalar (RgbLed.pin_b e));
         ("invert", scalar (RgbLed.invert e));
         ("labels", labels_value (RgbLed.labels e)) ].

Definition of_gate_input (e : GateInput.t) : value :=
  VObj [ ("pin", scalar (GateInput.pin e));
         ("labels", labels_value (GateInput.labels e)) ].

Definition of_list {A : Type} (of_entry : A -> value) (l : option (list A))
    : option (list value) :=
  option_map (map of_entry) l.

(** An entry that is not an object to read from. *)
Definition nullish (v : value) : bool :=
  match v with
  | VUndefined | VNull => true
  | _ => false
  end.

(** An object whose [labels] is there and is not an array. *)
Definition labels_not_an_array (v : value) : bool :=
  match v with
  | VObj properties =>
      truthy (lookup "labels" properties)
      && match lookup "labels" properties with
         | VArr _ => false
         | _ => true
         end
  | _ => false
  end.

(** The switch entry [{pin: 1, labels: "foo"}]. *)
Definition switch_with_string_labels : value :=
  VObj [ ("pin", VNum 1); ("labels", VStr "foo") ].

Definition of_midi_handler (e : MidiHandler.t) : value :=
  VObj [ ("pin_rx", scalar (MidiHandler.pin_rx e));
         ("pin_tx", scalar (MidiHandler.pin_tx e)) ].

(** One interpolated call of the template on the values that a typed
    document stands for, with the arguments of [call]; the display call,
    which writes to its entries, stays on the typed entries. *)
Definition call (k : Kind) (context : Context)
    (hardware_description : HardwareDescription.t) : result string :=
  let hd := hardware_description in
  match k with
  | AnalogControls =>
      generateAnalogControls
        (of_list of_analog_control (HardwareDescription.analog_controls hd))
        (of_list of_analog_control (HardwareDescription.cv_inputs hd)) context
  | CvOutputs =>
      generateCvOutputs
        (of_list of_cv_output (HardwareDescription.cv_outputs hd)) context
  | Encoders =>
      generateEncoders
        (of_list of_encoder (HardwareDescription.encoders hd)) context
  | GateInputs =>
      generateGateInputs
        (of_list of_gate_input (HardwareDescription.gate_inputs hd)) context
  | GateOutputs =>
      generateGateOutputs
        (of_list of_gate_input (HardwareDescription.gate_inputs hd)) context
  | Leds =>
      generateLeds (of_list of_led (HardwareDescription.leds hd)) context
  | MidiHandlers =>
      generateMidiHandlers
        (of_list of_midi_handler (HardwareDescription.midi_handlers hd)) context
  | OledDisplays =>
      fst (generateOledDisplays (HardwareDescription.oled_displays hd) context)
  | RgbLeds =>
      generateRgbLeds (of_list of_rgb_led (HardwareDescription.rgb_leds hd))
        context
  | Switches =>
      generateSwitches (of_list of_switch (HardwareDescription.switches hd))
        context
  end.

(** What a generator of one list does on entries of any shape. *)

(** It gives the empty fragment for a missing and for an empty list. *)
Definition empty_without_entries
    (generate : option (list value) -> Context -> result string) : Prop :=
  forall (missing : bool) (context : Context),
    generate (no_entries missing) context = Ok "".

(** It gives the empty fragment at a phase, whatever the entries. *)
Definition empty_at (context : Context)
    (generate : option (list value) -> Context -> result string) : Prop :=
  forall entries, generate entries context = Ok "".

(** It returns a string at a phase, whatever the entries. *)
Definition never_throws_at (context : Context)
    (generate : option (list value) -> Context -> result string) : Prop :=
  forall entries, exists fragment, generate entries context = Ok fragment.

(** It throws at the declaration and at the initialization when some entry
    is [null] or [undefined], and at the declaration when the [labels] of
    some entry is there and is not an array, wherever the entry stands. *)
Definition throws_on_unreadable_entries
    (generate : option (list value) -> Context -> result string) : Prop :=
  forall (before : list value) (x : value) (after : list value),
    (if nullish x
     then generate (Some (before ++ x :: after)%list) DECLARATION = TypeError
          /\ generate (Some (before ++ x :: after)%list) INITIALIZATION
             = TypeError
     else True)
    /\ (if labels_not_an_array x
        then generate (Some (before ++ x :: after)%list) DECLARATION = TypeError
        else True).

End Raw.

(** ** Loops as lists of lines *)

Lemma mapi_from_app {A B : Type} (f : nat -> A -> B) (l1 l2 : list A) (i : nat) :
  mapi_from i f (l1 ++ l2)%list
  = (mapi_from i f l1 ++ mapi_from (i + length l1) f l2)%list.
Proof.
  revert i; induction l1 as [|x l1 IH]; intros i; simpl.
  - now rewrite Nat.add_0_r.
  - rewrite IH. now rewrite Nat.add_succ_comm.
Qed.


Lemma mapi_from_nth_error {A B : Type} (f : nat -> A -> B) (l : list A)
    (i j : nat) :
  nth_error (mapi_from i f l) j = option_map (f (i + j)) (nth_error l j).
Proof.
  revert i j; induction l as [|x l IH]; intros i [|j]; simpl; try reflexivity.
  - now rewrite Nat.add_0_r.
  - rewrite IH. now rewrite Nat.add_succ_comm.
Qed.


(** A loop whose body appends the lines [g idx x] appends them all, entry
    by entry. *)
Lemma forEach_from_appends {A : Type} (body : A -> nat -> list string -> list string)
    (g : nat -> A -> list string) (l : list A) :
  (forall x idx code, body x idx code = (code ++ g idx x)%list) ->
  forall i code,
    forEach_from i l body code = (code ++ concat (mapi_from i g l))%list.
Proof.
  intros Hbody; induction l as [|x l IH]; intros i code; simpl.
  - now rewrite app_nil_r.
  - rewrite IH, Hbody. now rewrite <- app_assoc.
Qed.

Lemma forEach_appends {A : Type} (body : A -> nat -> list string -> list string)
    (g : nat -> A -> list string) (l : list A) (code : list string) :
  (forall x idx code, body x idx code = (code ++ g idx x)%list) ->
  forEach l body code = (code ++ concat (mapi g l))%list.
Proof.
  intros Hbody. unfold forEach, mapi. now apply forEach_from_appends.
Qed.

(** A loop whose body pushes the one line [g idx x]. *)
Lemma forEach_pushes {A : Type} (body : A -> nat -> list string -> list string)
    (g : nat -> A -> string) (l : list A) (code : list string) :
  (forall x idx code, body x idx code = push code (g idx x)) ->
  forEach l body code = (code ++ mapi g l)%list.
Proof.
  intros Hbody.
  assert (G : forall i c, forEach_from i l body c = (c ++ mapi_from i g l)%list).
  { induction l as [|x l IH]; intros i c; simpl.
    - now rewrite app_nil_r.
    - rewrite IH, Hbody. unfold push. now rewrite <- app_assoc. }
  apply G.
Qed.

(** The inner loop over the aliases of one entry. *)
Lemma forEach_labels (type array : string) (idx : nat)
    (labels : option (list string)) (code : list string) :
  match labels with
  | Some labels =>
      forEach labels (fun label (_ : nat) code =>
        push code (type ++ "& " ++ label ++ " = " ++ array ++ "["
                   ++ nat_str idx ++ "];")) code
  | None => code
  end = (code ++ alias_refs type array idx labels)%list.
Proof.
  destruct labels as [labels|]; simpl.
  - unfold alias_refs; simpl.
    rewrite (forEach_pushes _
      (fun (_ : nat) label => type ++ "& " ++ label ++ " = " ++ array ++ "["
                              ++ nat_str idx ++ "];")) by reflexivity.
    f_equal. unfold mapi. generalize 0.
    induction labels as [|x l IH]; intros n; simpl; [reflexivity|].
    now rewrite IH.
  - now rewrite app_nil_r.
Qed.

(** ** The merged analog kind *)

(** C1. The analog array is declared with size
    count(analog_controls) + count(cv_inputs), and the channel
    configurations, the Init calls and the Process calls index the entries
    in concatenation order: the analog_controls entries get the indices
    from 0 in input order, the cv_inputs entries the indices that follow,
    in input order. *)
Theorem analog_merge_count_and_order
    (analog_controls cv_inputs : option (list AnalogControl.t)) :
  (or_empty analog_controls ++ or_empty cv_inputs)%list <> [] ->
  let A := or_empty analog_controls in
  let C := or_empty cv_inputs in
  let n := length A + length C in
  generateAnalogControls analog_controls cv_inputs DECLARATION
  = join (nl ++ "    ")
      ([ "// analog_controls declaration";
         ("AnalogControl controls[" ++ nat_str n ++ "];")%string ]
       ++ concat (mapi analog_alias_refs A)
       ++ concat (mapi_from (length A) analog_alias_refs C))%list
  /\ generateAnalogControls analog_controls cv_inputs INITIALIZATION
  = join (nl ++ "        ")
      ([ "// BEGIN - analog_controls initialization";
         ("AdcChannelConfig cfg[" ++ nat_str n ++ "];")%string ]
       ++ mapi analog_cfg_line A
       ++ mapi_from (length A) analog_cfg_line C
       ++ [ ("seed.adc.Init(cfg, " ++ nat_str n ++ ");")%string ]
       ++ mapi analog_init_line A
       ++ mapi_from (length A) analog_init_line C
       ++ [ "seed.adc.Start();"; "// END - analog_controls initialization" ])%list
  /\ generateAnalogControls analog_controls cv_inputs PROCESSING
  = join (nl ++ "        ")
      ([ "// process analog_controls" ]
       ++ mapi analog_process_line A
       ++ mapi_from (length A) analog_process_line C)%list.
Proof.
  intros Hne A C n.
  unfold generateAnalogControls.
  change (([] ++ or_empty analog_controls) ++ or_empty cv_inputs)%list
    with (A ++ C)%list.
  assert (Hlen : length (A ++ C)%list = n) by apply length_app.
  rewrite Hlen.
  assert (Hn : Nat.eqb n 0 = false).
  { apply Nat.eqb_neq. intros E. apply Hne.
    apply length_zero_iff_nil. fold A C. now rewrite Hlen. }
  rewrite Hn.
  repeat split.
  - rewrite (forEach_appends _ analog_alias_refs).
    + unfold mapi at 1. rewrite mapi_from_app, concat_app. reflexivity.
    + intros x idx code.
      exact (forEach_labels "AnalogControl" "controls" idx
               (AnalogControl.labels x) code).
  - rewrite (forEach_pushes _ analog_init_line) by reflexivity.
    rewrite (forEach_pushes _ analog_cfg_line) by reflexivity.
    unfold push, mapi. rewrite !mapi_from_app. simpl.
    f_equal. rewrite <- !app_assoc. simpl. reflexivity.
  - rewrite (forEach_pushes _ analog_process_line) by reflexivity.
    unfold mapi. rewrite mapi_from_app. reflexivity.
Qed.

Lemma analog_merge_count_and_order_witness :
  generateAnalogControls (Some two_analog_controls) (Some one_cv_input)
    DECLARATION
  = join (nl ++ "    ")
      [ "// analog_controls declaration"; "AnalogControl controls[3];" ]
  /\ generateAnalogControls (Some two_analog_controls) (Some one_cv_input)
       INITIALIZATION
  = join (nl ++ "        ")
      [ "// BEGIN - analog_controls initialization";
        "AdcChannelConfig cfg[3];";
        "cfg[0].InitSingle(seed.GetPin(15));";
        "cfg[1].InitSingle(seed.GetPin(16));";
        "cfg[2].InitSingle(seed.GetPin(17));";
        "seed.adc.Init(cfg, 3);";
        "controls[0].Init(seed.adc.GetPtr(0), seed.AudioCallbackRate(), false, false);";
        "controls[1].Init(seed.adc.GetPtr(1), seed.AudioCallbackRate(), false, true);";
        "controls[2].Init(seed.adc.GetPtr(2), seed.AudioCallbackRate(), true, false);";
        "seed.adc.Start();";
        "// END - analog_controls initialization" ]
  /\ generateAnalogControls (Some two_analog_controls) (Some one_cv_input)
       PROCESSING
  = join (nl ++ "        ")
      [ "// process analog_controls"; "controls[0].Process();";
        "controls[1].Process();"; "controls[2].Process();" ].
Proof.
  apply (analog_merge_count_and_order (Some two_analog_controls)
           (Some one_cv_input)).
  simpl. discriminate.
Defined.

(** ** CV outputs *)

(** C2. A cv_outputs list with more than two entries yields the one fixed
    two-channel DAC initialization fragment at the initialization phase and
    nothing at the other phases, exactly as any two-entry list does: neither
    the excess entries nor any attribute of an entry shows in the output. *)
Theorem cv_outputs_truncated (cv_outputs two : list CvOutput.t) :
  2 < length cv_outputs ->
  length two = 2 ->
  generateCvOutputs (Some cv_outputs) INITIALIZATION = dac_init_fragment
  /\ (forall context,
        context <> INITIALIZATION ->
        generateCvOutputs (Some cv_outputs) context = "")
  /\ (forall context,
        generateCvOutputs (Some cv_outputs) context
        = generateCvOutputs (Some two) context).
Proof.
  intros Hlen Htwo.
  destruct cv_outputs as [|a l]; [simpl in Hlen; lia|].
  destruct two as [|b t]; [discriminate|].
  unfold generateCvOutputs; simpl absent; cbv iota.
  split; [reflexivity | split].
  - intros context Hc. destruct context; try reflexivity. now elim Hc.
  - intros context. destruct context; reflexivity.
Qed.

Lemma cv_outputs_truncated_witness :
  generateCvOutputs (Some five_cv_outputs) INITIALIZATION = dac_init_fragment
  /\ (forall context,
        context <> INITIALIZATION ->
        generateCvOutputs (Some five_cv_outputs) context = "")
  /\ (forall context,
        generateCvOutputs (Some five_cv_outputs) context
        = generateCvOutputs (Some two_cv_outputs) context).
Proof.
  apply (cv_outputs_truncated five_cv_outputs two_cv_outputs).
  - simpl. lia.
  - reflexivity.
Defined.

(** ** Placeholder kinds *)

(** C8. The gate-output generator and the MIDI-handler generator produce
    the empty fragment for every list, empty or not, at every phase; so do
    their calls from the template. *)
Theorem placeholders_emit_nothing :
  (forall (A : Type) (gate_outputs : option (list A)) (context : Context),
      generateGateOutputs gate_outputs context = "")
  /\ (forall (A : Type) (midi_handlers : option (list A)) (context : Context),
        generateMidiHandlers midi_handlers context = "")
  /\ (forall (hd : HardwareDescription.t) (context : Context),
        call GateOutputs context hd = (Ok "", hd)
        /\ call MidiHandlers context hd = (Ok "", hd)).
Proof.
  repeat split.
Qed.

(** ** Labels *)

Ltac labels_loop type array labels_of :=
  rewrite (forEach_appends _
             (fun idx x => alias_refs type array idx (labels_of x)));
  [ reflexivity
  | intros x idx code;
    exact (forEach_labels type array idx (labels_of x) code) ].

(** C9. For each kind that has labels (analog controls with CV inputs,
    encoders, switches, LEDs, RGB LEDs, gate inputs) the declaration
    fragment consists of the kind's fixed lines followed, for each entry in
    list order and for each alias of the entry in list order, by exactly one
    reference binding the alias to the entry's index in the kind's array.
    The switch entry with pin 1 and the label foo at index 0 gives the
    binding of foo to switches[0]. *)
Theorem labels_bind_aliases_to_slots :
  (forall (e : AnalogControl.t) (l : list AnalogControl.t)
          (cv_inputs : option (list AnalogControl.t)),
      let all := ((e :: l) ++ or_empty cv_inputs)%list in
      generateAnalogControls (Some (e :: l)) cv_inputs DECLARATION
      = join (nl ++ "    ")
          ([ "// analog_controls declaration";
             ("AnalogControl controls[" ++ nat_str (length all) ++ "];")%string ]
           ++ concat (mapi (fun idx x =>
                        alias_refs "AnalogControl" "controls" idx
                          (AnalogControl.labels x)) all))%list)
  /\ (forall (e : Encoder.t) (l : list Encoder.t),
        generateEncoders (Some (e :: l)) DECLARATION
        = join (nl ++ "    ")
            ([ "//  encoders declaration";
               ("Encoder encoders[" ++ nat_str (length (e :: l)) ++ "];")%string;
               "Encoder& encoder = encoders[0];" ]
             ++ concat (mapi (fun idx x =>
                          alias_refs "Encoder" "encoders" idx (Encoder.labels x))
                          (e :: l)))%list)
  /\ (forall (e : Switch.t) (l : list Switch.t),
        generateSwitches (Some (e :: l)) DECLARATION
        = join (nl ++ "    ")
            ([ "//  switches declaration";
               ("Switch switches[" ++ nat_str (length (e :: l)) ++ "];")%string ]
             ++ concat (mapi (fun idx x =>
                          alias_refs "Switch" "switches" idx (Switch.labels x))
                          (e :: l)))%list)
  /\ (forall (e : Led.t) (l : list Led.t),
        generateLeds (Some (e :: l)) DECLARATION
        = join (nl ++ "    ")
            ([ "//  leds declaration";
               ("Led leds[" ++ nat_str (length (e :: l)) ++ "];")%string ]
             ++ concat (mapi (fun idx x =>
                          alias_refs "Led" "leds" idx (Led.labels x))
                          (e :: l)))%list)
  /\ (forall (e : RgbLed.t) (l : list RgbLed.t),
        generateRgbLeds (Some (e :: l)) DECLARATION
        = join (nl ++ "    ")
            ([ "//  rgb_leds declaration";
               ("RgbLed rgb_leds[" ++ nat_str (length (e :: l)) ++ "];")%string ]
             ++ concat (mapi (fun idx x =>
                          alias_refs "RgbLed" "rgb_leds" idx (RgbLed.labels x))
                          (e :: l)))%list)
  /\ (forall (e : GateInput.t) (l : list GateInput.t),
        generateGateInputs (Some (e :: l)) DECLARATION
        = join (nl ++ "    ")
            ([ "//gate_inputs declaration";
               ("GateIn gate_inputs[" ++ nat_str (length (e :: l)) ++ "];")%string ]
             ++ concat (mapi (fun idx x =>
                          alias_refs "GateIn" "gate_inputs" idx (GateInput.labels x))
                          (e :: l)))%list)
  /\ generateSwitches
       (Some [ Switch.mk (JNum 1) JUndefined JUndefined JUndefined (Some ["foo"]) ])
       DECLARATION
     = join (nl ++ "    ")
         [ "//  switches declaration"; "Switch switches[1];";
           "Switch& foo = switches[0];" ].
Proof.
  repeat apply conj.
  - intros e l cv_inputs all.
    unfold generateAnalogControls.
    change (([] ++ or_empty (Some (e :: l))) ++ or_empty cv_inputs)%list with all.
    change (Nat.eqb (length all) 0) with false. cbv iota.
    labels_loop "AnalogControl" "controls" AnalogControl.labels.
  - intros e l. unfold generateEncoders. cbn [absent or_empty].
    labels_loop "Encoder" "encoders" Encoder.labels.
  - intros e l. unfold generateSwitches. cbn [absent or_empty].
    labels_loop "Switch" "switches" Switch.labels.
  - intros e l. unfold generateLeds. cbn [absent or_empty].
    labels_loop "Led" "leds" Led.labels.
  - intros e l. unfold generateRgbLeds. cbn [absent or_empty].
    labels_loop "RgbLed" "rgb_leds" RgbLed.labels.
  - intros e l. unfold generateGateInputs. cbn [absent or_empty].
    labels_loop "GateIn" "gate_inputs" GateInput.labels.
  - reflexivity.
Qed.

(** ** Displays *)

Lemma forEachE_from_blocks {A : Type}
    (body : A -> nat -> list string -> result (list string))
    (g : nat -> A -> result (list string)) (l : list A) :
  (forall x idx code,
      body x idx code = (ls <- g idx x ;; Ok (code ++ ls)%list)) ->
  forall i code,
    forEachE_from i l body code
    = (blocks <- sequenceE (mapi_from i g l) ;; Ok (code ++ concat blocks)%list).
Proof.
  intros Hbody; induction l as [|x l IH]; intros i code; simpl.
  - now rewrite app_nil_r.
  - rewrite Hbody. destruct (g i x) as [ls|]; simpl; [|reflexivity].
    rewrite IH. destruct (sequenceE (mapi_from (S i) g l)) as [blocks|]; simpl.
    + now rewrite <- app_assoc.
    + reflexivity.
Qed.

Lemma name_display (idx : nat) (rest : string) :
  "display" ++ (if Nat.eqb idx 0 then "" else nat_str idx) ++ rest
  = name "display" idx ++ rest.
Proof.
  destruct idx; reflexivity.
Qed.


Lemma generateOledDisplays_declaration (e : OledDisplay.t)
    (l : list OledDisplay.t) :
  fst (generateOledDisplays (Some (e :: l)) DECLARATION)
  = Ok (join (nl ++ "    ")
          ("// OLED display declaration"
           :: mapi display_decl_line (map derive_driver_name (e :: l)))).
Proof.
  unfold generateOledDisplays. cbn [absent or_empty fst].
  rewrite (forEach_pushes _ display_decl_line); [reflexivity|].
  intros x idx code. unfold display_decl_line.
  now rewrite <- name_display.
Qed.

Lemma generateOledDisplays_initialization (e : OledDisplay.t)
    (l : list OledDisplay.t) :
  fst (generateOledDisplays (Some (e :: l)) INITIALIZATION)
  = (blocks <- sequenceE (mapi display_init_block
                            (map derive_driver_name (e :: l))) ;;
     Ok (join (nl ++ "        ")
           ("// BEGIN - OLED display initialization"
            :: concat blocks ++ [ "// END - OLED display initialization" ])%list)).
Proof.
  unfold generateOledDisplays. cbn [absent or_empty fst].
  unfold forEachE, mapi.
  rewrite (forEachE_from_blocks _ display_init_block).
  - destruct (sequenceE _); reflexivity.
  - intros x idx code.
    unfold display_init_block, display_transport_lines, prop_of, push.
    rewrite <- name_display.
    destruct (strict_eq_str (OledDisplay.transport x) "4WireSpi").
    + destruct (OledDisplay._4_wire_spi_config x); simpl; [|reflexivity].
      now rewrite <- !app_assoc.
    + destruct (strict_eq_str (OledDisplay.transport x) "I2c").
      * destruct (OledDisplay.i2c_config x); simpl; [|reflexivity].
        now rewrite <- !app_assoc.
      * simpl. now rewrite <- !app_assoc.
Qed.

(** C5. The driver-name identifier written onto a display entry is the
    character-for-character concatenation of the entry's driver, transport
    and dimensions strings followed by the suffix Driver; the entry keeps
    its other fields, whatever the phase and wherever the entry stands in
    the list, and the declaration uses the identifier as it is. *)
Theorem driver_name_derivation (d : OledDisplay.t) (driver transport dimensions : string)
    (before after : list OledDisplay.t) (context : Context) :
  OledDisplay.driver d = JStr driver ->
  OledDisplay.transport d = JStr transport ->
  OledDisplay.dimensions d = JStr dimensions ->
  let identifier := driver ++ transport ++ dimensions ++ "Driver" in
  nth_error
    (or_empty (snd (generateOledDisplays (Some (before ++ d :: after)%list) context)))
    (length before)
  = Some (OledDisplay.set_driver_name d (JStr identifier))
  /\ fst (generateOledDisplays (Some [d]) DECLARATION)
     = Ok (join (nl ++ "    ")
             [ "// OLED display declaration";
               "OledDisplay<" ++ identifier ++ "> display;" ]).
Proof.
  intros Hd Ht Hm identifier.
  assert (E : derive_driver_name d
              = OledDisplay.set_driver_name d (JStr identifier)).
  { unfold derive_driver_name. rewrite Hd, Ht, Hm. reflexivity. }
  split.
  - assert (S : snd (generateOledDisplays (Some (before ++ d :: after)%list) context)
                = Some (map derive_driver_name (before ++ d :: after)%list)).
    { destruct before; reflexivity. }
    rewrite S. cbn [or_empty]. rewrite map_app. cbn [map].
    rewrite nth_error_app2 by (rewrite length_map; lia).
    rewrite length_map, Nat.sub_diag. cbn [nth_error]. now rewrite E.
  - rewrite generateOledDisplays_declaration. cbn [map mapi mapi_from].
    rewrite E. reflexivity.
Qed.

Lemma driver_name_derivation_witness :
  nth_error
    (or_empty (snd (generateOledDisplays (Some [ssd130x_i2c_bare]) INCLUDE))) 0
  = Some (OledDisplay.set_driver_name ssd130x_i2c_bare
            (JStr "SSD130xI2c128x64Driver"))
  /\ fst (generateOledDisplays (Some [ssd130x_i2c_bare]) DECLARATION)
     = Ok (join (nl ++ "    ")
             [ "// OLED display declaration";
               "OledDisplay<SSD130xI2c128x64Driver> display;" ]).
Proof.
  exact (driver_name_derivation ssd130x_i2c_bare "SSD130x" "I2c" "128x64"
           [] [] INCLUDE eq_refl eq_refl eq_refl).
Defined.

(** C6. In the declaration fragment and in the initialization fragment of
    a non-empty display list, the variable of the entry at index 0 is
    display and the variable of an entry at a later index is display
    followed by the index; two entries give display and display1. *)
Theorem display_names_follow_convention :
  (forall (e : OledDisplay.t) (l : list OledDisplay.t),
      fst (generateOledDisplays (Some (e :: l)) DECLARATION)
      = Ok (join (nl ++ "    ")
              ("// OLED display declaration"
               :: mapi display_decl_line (map derive_driver_name (e :: l))))
      /\ fst (generateOledDisplays (Some (e :: l)) INITIALIZATION)
         = (blocks <- sequenceE (mapi display_init_block
                                   (map derive_driver_name (e :: l))) ;;
            Ok (join (nl ++ "        ")
                  ("// BEGIN - OLED display initialization"
                   :: concat blocks
                   ++ [ "// END - OLED display initialization" ])%list)))
  /\ (forall (idx : nat) (d : OledDisplay.t),
        display_decl_line idx d
        = "OledDisplay<" ++ ToString (OledDisplay.driver_name d) ++ "> "
          ++ name "display" idx ++ ";"
        /\ match display_init_block idx d with
           | Ok block =>
               last block ""
               = name "display" idx ++ ".Init(display_config" ++ nat_str idx
                 ++ ");"
           | TypeError => True
           end)
  /\ name "display" 0 = "display"
  /\ (forall index, name "display" (S index) = "display" ++ nat_str (S index))
  /\ fst (generateOledDisplays
            (Some [ssd130x_i2c_128x64; ssd130x_spi_128x64]) DECLARATION)
     = Ok (join (nl ++ "    ")
             [ "// OLED display declaration";
               "OledDisplay<SSD130xI2c128x64Driver> display;";
               "OledDisplay<SSD130x4WireSpi128x64Driver> display1;" ])
  /\ fst (generateOledDisplays
            (Some [ssd130x_i2c_128x64; ssd130x_spi_128x64]) INITIALIZATION)
     = Ok (join (nl ++ "        ")
             [ "// BEGIN - OLED display initialization";
               "// Display 0";
               "OledDisplay<SSD130xI2c128x64Driver>::Config display_config0;";
               "display_config0.driver_config.transport_config.i2c_address = 60;";
               "display_config0.driver_config.transport_config.i2c_config.periph = I2CHandle::Config::Peripheral::I2C_1;";
               "display_config0.driver_config.transport_config.i2c_config.speed = I2CHandle::Config::Speed::I2C_1MHZ;";
               "display_config0.driver_config.transport_config.i2c_config.pin_config.sda = seed.GetPin(12);";
               "display_config0.driver_config.transport_config.i2c_config.pin_config.scl = seed.GetPin(11);";
               "display.Init(display_config0);";
               "// Display 1";
               "OledDisplay<SSD130x4WireSpi128x64Driver>::Config display_config1;";
               "display_config1.driver_config.transport_config.pin_config.dc = seed.GetPin(9);";
               "display_config1.driver_config.transport_config.pin_config.reset = seed.GetPin(30);";
               "display1.Init(display_config1);";
               "// END - OLED display initialization" ]).
Proof.
  split; [|split; [|repeat split]].
  - intros e l. split.
    + apply generateOledDisplays_declaration.
    + apply generateOledDisplays_initialization.
  - intros idx d. split; [reflexivity|].
    unfold display_init_block.
    destruct (display_transport_lines idx d) as [ls|]; cbn [bindE]; [|exact I].
    rewrite app_assoc. apply last_last.
Qed.

(** ** The derived field and the state of the document *)

Lemma derive_driver_name_overwrites (d : OledDisplay.t) (v : jsval) :
  derive_driver_name (OledDisplay.set_driver_name d v) = derive_driver_name d.
Proof.
  destruct d; reflexivity.
Qed.

Lemma derive_driver_name_idempotent (d : OledDisplay.t) :
  derive_driver_name (derive_driver_name d) = derive_driver_name d.
Proof.
  destruct d; reflexivity.
Qed.

Lemma same_displays_refl (o : option (list OledDisplay.t)) : same_displays o o.
Proof.
  reflexivity.
Qed.

Lemma same_displays_absent (o o' : option (list OledDisplay.t)) :
  same_displays o o' -> absent o = absent o'.
Proof.
  unfold same_displays.
  destruct o as [[|a l]|], o' as [[|a' l']|]; simpl; intros H;
    try reflexivity; discriminate.
Qed.

(** The generator reads its entries only after it has rewritten their
    [driver_name]: its result does not depend on the value found there. *)
Lemma generateOledDisplays_result (o o' : option (list OledDisplay.t))
    (context : Context) :
  same_displays o o' ->
  fst (generateOledDisplays o context) = fst (generateOledDisplays o' context).
Proof.
  intros H. pose proof (same_displays_absent _ _ H) as Ha.
  unfold generateOledDisplays. rewrite <- Ha.
  destruct (absent o) eqn:E; [reflexivity|].
  destruct o as [l|], o' as [l'|]; try discriminate.
  unfold same_displays in H. simpl in H. injection H as H.
  cbn [or_empty fst]. now rewrite H.
Qed.

Lemma generateOledDisplays_state (o : option (list OledDisplay.t))
    (context : Context) :
  same_displays (snd (generateOledDisplays o context)) o.
Proof.
  unfold generateOledDisplays, same_displays.
  destruct (absent o) eqn:E; [reflexivity|].
  destruct o as [l|]; [|discriminate].
  cbn [snd or_empty option_map]. f_equal.
  rewrite map_map. apply map_ext. apply derive_driver_name_idempotent.
Qed.

Lemma same_document_refl (hd : HardwareDescription.t) : same_document hd hd.
Proof.
  split; reflexivity.
Qed.

Lemma same_document_trans (a b c : HardwareDescription.t) :
  same_document a b -> same_document b c -> same_document a c.
Proof.
  intros [H1 H2] [H3 H4]. split.
  - now rewrite H1.
  - unfold same_displays in *. now rewrite H2.
Qed.

Lemma call_result (k : Kind) (context : Context) (hd hd' : HardwareDescription.t) :
  same_document hd hd' -> fst (call k context hd) = fst (call k context hd').
Proof.
  intros [H1 H2]. destruct hd, hd'. simpl in H1, H2.
  injection H1 as -> -> -> -> -> -> -> -> -> ->.
  destruct k; try reflexivity.
  unfold call. cbn [HardwareDescription.oled_displays].
  pose proof (generateOledDisplays_result _ _ context H2) as E.
  destruct (generateOledDisplays oled_displays context),
           (generateOledDisplays oled_displays0 context).
  exact E.
Qed.

Lemma call_state (k : Kind) (context : Context) (hd : HardwareDescription.t) :
  same_document (snd (call k context hd)) hd.
Proof.
  destruct k; try apply same_document_refl.
  unfold call.
  pose proof (generateOledDisplays_state
                (HardwareDescription.oled_displays hd) context) as E.
  destruct (generateOledDisplays (HardwareDescription.oled_displays hd) context)
    as [r entries].
  destruct hd. split; [reflexivity | exact E].
Qed.

(** The text of a template is the concatenation of the texts of its
    pieces, each on the document as it was given: the writes of one call
    change nothing for the calls after it. *)
Lemma render_text (template : list piece) (hd0 : HardwareDescription.t) :
  forall hd,
    same_document hd hd0 ->
    fst (render template hd) = concatE (map (piece_text hd0) template)
    /\ same_document (snd (render template hd)) hd0.
Proof.
  induction template as [|p rest IH]; intros hd H.
  - split; [reflexivity | exact H].
  - destruct p as [s|k c]; cbn [render map concatE piece_text bindE].
    + destruct (IH hd H) as [E1 E2].
      destruct (render rest hd) as [r hd']. cbn [fst snd] in *.
      split; [now rewrite E1 | exact E2].
    + pose proof (call_result k c hd hd0 H) as Er.
      pose proof (call_state k c hd) as Es.
      destruct (call k c hd) as [[fragment|] hd1]; cbn [fst snd] in *.
      * rewrite <- Er. cbn [bindE].
        destruct (IH hd1 (same_document_trans _ _ _ Es H)) as [E1 E2].
        destruct (render rest hd1) as [r hd2]. cbn [fst snd] in *.
        split; [now rewrite E1 | exact E2].
      * rewrite <- Er. split; [reflexivity|].
        exact (same_document_trans _ _ _ Es H).
Qed.

Lemma generateCustomHardwareImpl_text (hd : HardwareDescription.t) :
  fst (generateCustomHardwareImpl hd)
  = concatE (map (piece_text hd) hardware_implementation).
Proof.
  apply render_text, same_document_refl.
Qed.

Lemma generateCustomHardwareImpl_same_document (hd hd' : HardwareDescription.t) :
  same_document hd hd' ->
  fst (generateCustomHardwareImpl hd) = fst (generateCustomHardwareImpl hd').
Proof.
  intros H. unfold generateCustomHardwareImpl.
  rewrite (proj1 (render_text hardware_implementation hd' hd H)).
  symmetry. apply render_text, same_document_refl.
Qed.

Lemma with_driver_names_same_document (names : nat -> jsval)
    (hd : HardwareDescription.t) :
  same_document (with_driver_names names hd) hd.
Proof.
  destruct hd as [a b c d e f g h o i j]. split; [reflexivity|].
  unfold with_driver_names, same_displays.
  cbn [HardwareDescription.oled_displays HardwareDescription.set_oled_displays].
  destruct o as [l|]; [|reflexivity].
  cbn [option_map]. f_equal. unfold mapi. generalize 0.
  induction l as [|x l IH]; intros n; simpl; [reflexivity|].
  now rewrite IH, derive_driver_name_overwrites.
Qed.

(** ** The composition of the fragments *)

(** C3, as the code has it.  The text is the concatenation of the pieces
    of the template in their order.  The declaration fragments stand in the
    order analog (with CV input), CV output, encoder, gate input, gate
    output, LED, MIDI handler, display, RGB LED, switch; the initialization
    fragments stand in the order analog (with CV input), CV output, gate
    input, gate output, encoder, LED, MIDI handler, display, RGB LED,
    switch: the encoder fragment comes after the two gate fragments. *)
Theorem initialization_fragments_order :
  (forall hd : HardwareDescription.t,
      fst (generateCustomHardwareImpl hd)
      = concatE (map (piece_text hd) hardware_implementation))
  /\ fragments_of DECLARATION hardware_implementation
     = [ AnalogControls; CvOutputs; Encoders; GateInputs; GateOutputs; Leds;
         MidiHandlers; OledDisplays; RgbLeds; Switches ]
  /\ fragments_of INITIALIZATION hardware_implementation
     = [ AnalogControls; CvOutputs; GateInputs; GateOutputs; Encoders; Leds;
         MidiHandlers; OledDisplays; RgbLeds; Switches ].
Proof.
  split; [exact generateCustomHardwareImpl_text | split; reflexivity].
Qed.

(** C3 as stated fails: the initialization fragments are not in the order
    of the declaration fragments.  With one encoder and one gate input, the
    encoder declaration stands before the gate-input declaration, and the
    gate-input initialization stands before the encoder initialization. *)
Lemma initialization_order_is_not_declaration_order :
  fragments_of INITIALIZATION hardware_implementation
  <> [ AnalogControls; CvOutputs; Encoders; GateInputs; GateOutputs; Leds;
       MidiHandlers; OledDisplays; RgbLeds; Switches ]
  /\ position
       (generateEncoders
          (HardwareDescription.encoders one_encoder_one_gate_input) DECLARATION)
       (fst (generateCustomHardwareImpl one_encoder_one_gate_input))
     = Some 112
  /\ position
       (generateGateInputs
          (HardwareDescription.gate_inputs one_encoder_one_gate_input) DECLARATION)
       (fst (generateCustomHardwareImpl one_encoder_one_gate_input))
     = Some 203
  /\ position
       (generateGateInputs
          (HardwareDescription.gate_inputs one_encoder_one_gate_input)
          INITIALIZATION)
       (fst (generateCustomHardwareImpl one_encoder_one_gate_input))
     = Some 419
  /\ position
       (generateEncoders
          (HardwareDescription.encoders one_encoder_one_gate_input) INITIALIZATION)
       (fst (generateCustomHardwareImpl one_encoder_one_gate_input))
     = Some 646.
Proof.
  split; [discriminate|].
  repeat split; vm_compute; reflexivity.
Qed.

(** C4. Generating twice in sequence from the same document gives the same
    result both times, although the first run leaves a [driver_name] on
    every display entry: a run changes nothing else in the document, and its
    result is the same whatever [driver_name] values the entries carry when
    it starts. *)
Theorem generation_is_idempotent (hd : HardwareDescription.t)
    (names : nat -> jsval) :
  fst (generateCustomHardwareImpl (snd (generateCustomHardwareImpl hd)))
  = fst (generateCustomHardwareImpl hd)
  /\ fst (generateCustomHardwareImpl (with_driver_names names hd))
     = fst (generateCustomHardwareImpl hd)
  /\ same_document (snd (generateCustomHardwareImpl hd)) hd
  /\ HardwareDescription.oled_displays
       (snd (generateCustomHardwareImpl one_display))
     = Some [ OledDisplay.set_driver_name ssd130x_i2c_128x64
                (JStr "SSD130xI2c128x64Driver") ].
Proof.
  assert (S : same_document (snd (generateCustomHardwareImpl hd)) hd)
    by (apply render_text, same_document_refl).
  split; [|split; [|split]].
  - now apply generateCustomHardwareImpl_same_document.
  - apply generateCustomHardwareImpl_same_document,
      with_driver_names_same_document.
  - exact S.
  - reflexivity.
Qed.

Lemma piece_text_placeholder_lists (hd : HardwareDescription.t)
    (gate_outputs : option (list GateOutput.t))
    (midi_handlers : option (list MidiHandler.t)) (p : piece) :
  piece_text
    (HardwareDescription.set_gate_outputs
       (HardwareDescription.set_midi_handlers hd midi_handlers) gate_outputs) p
  = piece_text hd p.
Proof.
  destruct p as [s|k c]; [reflexivity|].
  destruct hd; destruct k; try reflexivity.
  unfold piece_text, call; simpl.
  destruct (generateOledDisplays oled_displays c); reflexivity.
Qed.

(** C10. Two documents that differ in their gate_outputs and midi_handlers
    lists only give the same text: the template hands the gate_inputs list
    to the gate-output generator, at the declaration and at the
    initialization, and the two placeholder generators return the empty
    fragment whatever they are given. *)
Theorem placeholder_lists_are_never_read (hd : HardwareDescription.t)
    (gate_outputs : option (list GateOutput.t))
    (midi_handlers : option (list MidiHandler.t)) :
  fst (generateCustomHardwareImpl
         (HardwareDescription.set_gate_outputs
            (HardwareDescription.set_midi_handlers hd midi_handlers)
            gate_outputs))
  = fst (generateCustomHardwareImpl hd)
  /\ (forall context,
        call GateOutputs context hd
        = (Ok (generateGateOutputs (HardwareDescription.gate_inputs hd) context),
           hd))
  /\ In (Gen GateOutputs DECLARATION) hardware_implementation
  /\ In (Gen GateOutputs INITIALIZATION) hardware_implementation
  /\ (forall (A : Type) (entries : option (list A)) (context : Context),
        generateGateOutputs entries context = ""
        /\ generateMidiHandlers entries context = "").
Proof.
  split; [|split; [|split; [|split; [|split]]]].
  - rewrite !generateCustomHardwareImpl_text. f_equal.
    apply map_ext. apply piece_text_placeholder_lists.
  - reflexivity.
  - unfold hardware_implementation. simpl. tauto.
  - unfold hardware_implementation. simpl. tauto.
  - reflexivity.
  - reflexivity.
Qed.

(** ** Fragments of every generator at every phase *)

Lemma display_init_block_present (idx : nat) (d : OledDisplay.t) :
  if transport_config_present d
  then exists block, display_init_block idx (derive_driver_name d) = Ok block
  else display_init_block idx (derive_driver_name d) = TypeError.
Proof.
  destruct d as [dr tr dim spi i2c dn].
  unfold transport_config_present, display_init_block, display_transport_lines,
    derive_driver_name.
  cbn [OledDisplay.transport OledDisplay._4_wire_spi_config
       OledDisplay.i2c_config OledDisplay.set_driver_name].
  destruct (strict_eq_str tr "4WireSpi").
  - destruct spi; cbn [bindE]; [eexists; reflexivity | reflexivity].
  - destruct (strict_eq_str tr "I2c").
    + destruct i2c; cbn [bindE]; [eexists; reflexivity | reflexivity].
    + cbn [bindE]. eexists; reflexivity.
Qed.

Lemma display_init_blocks_present (l : list OledDisplay.t) (i : nat) :
  if forallb transport_config_present l
  then exists blocks,
         sequenceE (mapi_from i display_init_block (map derive_driver_name l))
         = Ok blocks
  else sequenceE (mapi_from i display_init_block (map derive_driver_name l))
       = TypeError.
Proof.
  revert i; induction l as [|d l IH]; intros i; cbn [forallb map mapi_from sequenceE].
  - eexists; reflexivity.
  - pose proof (display_init_block_present i d) as Hd.
    specialize (IH (S i)).
    destruct (transport_config_present d); cbn [andb].
    + destruct Hd as [block ->]. cbn [bindE].
      destruct (forallb transport_config_present l).
      * destruct IH as [blocks ->]. eexists; reflexivity.
      * now rewrite IH.
    + now rewrite Hd.
Qed.

(** *** Entries of any shape *)

Lemma raw_ToString_scalar (v : jsval) :
  Raw.ToString (Raw.scalar v) = Ok (ToString v).
Proof.
  destruct v; reflexivity.
Qed.

Lemma raw_truthy_scalar (v : jsval) : Raw.truthy (Raw.scalar v) = ToBoolean v.
Proof.
  destruct v; reflexivity.
Qed.

Lemma forEachE_from_of_map {A St : Type} (f : A -> Raw.value)
    (bodyR : Raw.value -> nat -> St -> result St) (body : A -> nat -> St -> St)
    (l : list A) :
  (forall x idx s, bodyR (f x) idx s = Ok (body x idx s)) ->
  forall i s, forEachE_from i (map f l) bodyR s = Ok (forEach_from i l body s).
Proof.
  intros H; induction l as [|x l IH]; intros i s; [reflexivity|].
  cbn [map forEachE_from forEach_from]. now rewrite H, IH.
Qed.

Lemma forEachE_of_map {A St : Type} (f : A -> Raw.value)
    (bodyR : Raw.value -> nat -> St -> result St) (body : A -> nat -> St -> St)
    (l : list A) (s : St) :
  (forall x idx s, bodyR (f x) idx s = Ok (body x idx s)) ->
  forEachE (map f l) bodyR s = Ok (forEach l body s).
Proof.
  intros H. now apply forEachE_from_of_map.
Qed.

(** The loop over the aliases of an entry whose [labels] is missing or an
    array of strings. *)
Lemma raw_labels_loop (line : string -> string) (labels : option (list string))
    (code : list string) :
  (if Raw.truthy (Raw.labels_value labels)
   then Raw.forEachV (Raw.labels_value labels)
          (fun label (_ : nat) code =>
             label <- Raw.ToString label ;; Ok (push code (line label))) code
   else Ok code)
  = Ok (match labels with
        | Some labels =>
            forEach labels (fun label (_ : nat) code => push code (line label))
              code
        | None => code
        end).
Proof.
  destruct labels as [labels|]; [|reflexivity].
  cbn [Raw.labels_value Raw.truthy Raw.forEachV].
  now apply forEachE_of_map.
Qed.

Lemma absent_of_list {A : Type} (f : A -> Raw.value) (o : option (list A)) :
  absent (Raw.of_list f o) = absent o.
Proof.
  now destruct o as [[|x l]|].
Qed.

Lemma or_empty_of_list {A : Type} (f : A -> Raw.value) (o : option (list A)) :
  or_empty (Raw.of_list f o) = map f (or_empty o).
Proof.
  now destruct o.
Qed.

Ltac refine_loop f :=
  match goal with
  | |- context [forEachE (map f ?l) ?bodyR ?s] =>
      match goal with
      | |- context [forEach l ?body s] =>
          rewrite (forEachE_of_map f bodyR body l s)
      end
  end.

Ltac read_entry :=
  cbn [Raw.get Raw.of_analog_control Raw.of_encoder Raw.of_switch Raw.of_led
       Raw.of_rgb_led Raw.of_gate_input Raw.lookup String.eqb Ascii.eqb
       Bool.eqb bindE];
  rewrite ?raw_ToString_scalar, ?raw_truthy_scalar;
  cbn [bindE].

(** On the entries of a well-formed document the generators on arbitrary
    values return what the generators on typed entries return. *)
Lemma raw_generateAnalogControls_refines
    (analog_controls cv_inputs : option (list AnalogControl.t)) (c : Context) :
  Raw.generateAnalogControls (Raw.of_list Raw.of_analog_control analog_controls)
    (Raw.of_list Raw.of_analog_control cv_inputs) c
  = Ok (generateAnalogControls analog_controls cv_inputs c).
Proof.
  unfold Raw.generateAnalogControls, generateAnalogControls.
  rewrite !or_empty_of_list. cbn [app]. rewrite <- map_app, length_map.
  destruct (Nat.eqb _ 0); [reflexivity|].
  destruct c; try reflexivity.
  - refine_loop Raw.of_analog_control; [reflexivity|].
    intros x idx s. read_entry.
    exact (raw_labels_loop
             (fun label => "AnalogControl& " ++ label ++ " = controls["
                           ++ nat_str idx ++ "];")
             (AnalogControl.labels x) s).
  - refine_loop Raw.of_analog_control;
      [|intros x idx s; read_entry; reflexivity].
    cbn [bindE].
    refine_loop Raw.of_analog_control;
      [reflexivity | intros x idx s; read_entry; reflexivity].
  - refine_loop Raw.of_analog_control; [reflexivity|].
    intros x idx s. reflexivity.
Qed.

Lemma raw_generateCvOutputs_refines (o : option (list CvOutput.t)) (c : Context) :
  Raw.generateCvOutputs (Raw.of_list Raw.of_cv_output o) c
  = Ok (generateCvOutputs o c).
Proof.
  unfold Raw.generateCvOutputs, generateCvOutputs.
  rewrite absent_of_list.
  destruct (absent o); [reflexivity|]. destruct c; reflexivity.
Qed.

Lemma raw_generateEncoders_refines (o : option (list Encoder.t)) (c : Context) :
  Raw.generateEncoders (Raw.of_list Raw.of_encoder o) c
  = Ok (generateEncoders o c).
Proof.
  unfold Raw.generateEncoders, generateEncoders.
  rewrite absent_of_list, or_empty_of_list, length_map.
  destruct (absent o); [reflexivity|].
  destruct c; try reflexivity.
  - refine_loop Raw.of_encoder; [reflexivity|].
    intros x idx s. read_entry.
    exact (raw_labels_loop
             (fun label => "Encoder& " ++ label ++ " = encoders["
                           ++ nat_str idx ++ "];")
             (Encoder.labels x) s).
  - refine_loop Raw.of_encoder;
      [reflexivity | intros x idx s; read_entry; reflexivity].
  - refine_loop Raw.of_encoder; [reflexivity|].
    intros x idx s. reflexivity.
Qed.

Lemma raw_generateSwitches_refines (o : option (list Switch.t)) (c : Context) :
  Raw.generateSwitches (Raw.of_list Raw.of_switch o) c
  = Ok (generateSwitches o c).
Proof.
  unfold Raw.generateSwitches, generateSwitches.
  rewrite absent_of_list, or_empty_of_list, length_map.
  destruct (absent o); [reflexivity|].
  destruct c; try reflexivity.
  - refine_loop Raw.of_switch; [reflexivity|].
    intros x idx s. read_entry.
    exact (raw_labels_loop
             (fun label => "Switch& " ++ label ++ " = switches["
                           ++ nat_str idx ++ "];")
             (Switch.labels x) s).
  - refine_loop Raw.of_switch;
      [reflexivity | intros x idx s; read_entry; reflexivity].
  - refine_loop Raw.of_switch; [reflexivity|].
    intros x idx s. reflexivity.
Qed.

Lemma raw_generateLeds_refines (o : option (list Led.t)) (c : Context) :
  Raw.generateLeds (Raw.of_list Raw.of_led o) c = Ok (generateLeds o c).
Proof.
  unfold Raw.generateLeds, generateLeds.
  rewrite absent_of_list, or_empty_of_list, length_map.
  destruct (absent o); [reflexivity|].
  destruct c; try reflexivity.
  - refine_loop Raw.of_led; [reflexivity|].
    intros x idx s. read_entry.
    exact (raw_labels_loop
             (fun label => "Led& " ++ label ++ " = leds["
                           ++ nat_str idx ++ "];")
             (Led.labels x) s).
  - refine_loop Raw.of_led;
      [reflexivity | intros x idx s; read_entry; reflexivity].
  - refine_loop Raw.of_led; [reflexivity|].
    intros x idx s. reflexivity.
Qed.

Lemma raw_generateRgbLeds_refines (o : option (list RgbLed.t)) (c : Context) :
  Raw.generateRgbLeds (Raw.of_list Raw.of_rgb_led o) c
  = Ok (generateRgbLeds o c).
Proof.
  unfold Raw.generateRgbLeds, generateRgbLeds.
  rewrite absent_of_list, or_empty_of_list, length_map.
  destruct (absent o); [reflexivity|].
  destruct c; try reflexivity.
  - refine_loop Raw.of_rgb_led; [reflexivity|].
    intros x idx s. read_entry.
    exact (raw_labels_loop
             (fun label => "RgbLed& " ++ label ++ " = rgb_leds["
                           ++ nat_str idx ++ "];")
             (RgbLed.labels x) s).
  - refine_loop Raw.of_rgb_led;
      [reflexivity | intros x idx s; read_entry; reflexivity].
  - refine_loop Raw.of_rgb_led; [reflexivity|].
    intros x idx s. reflexivity.
Qed.

Lemma raw_generateGateInputs_refines (o : option (list GateInput.t))
    (c : Context) :
  Raw.generateGateInputs (Raw.of_list Raw.of_gate_input o) c
  = Ok (generateGateInputs o c).
Proof.
  unfold Raw.generateGateInputs, generateGateInputs.
  rewrite absent_of_list, or_empty_of_list, length_map.
  destruct (absent o); [reflexivity|].
  destruct c; try reflexivity.
  - refine_loop Raw.of_gate_input; [reflexivity|].
    intros x idx s. read_entry.
    exact (raw_labels_loop
             (fun label => "GateIn& " ++ label ++ " = gate_inputs["
                           ++ nat_str idx ++ "];")
             (GateInput.labels x) s).
  - refine_loop Raw.of_gate_input;
      [reflexivity | intros x idx s; read_entry; reflexivity].
Qed.

Lemma forEachE_from_throws {A St : Type} (body : A -> nat -> St -> result St)
    (before : list A) (x : A) (after : list A) :
  (forall idx s, body x idx s = TypeError) ->
  forall i s, forEachE_from i (before ++ x :: after)%list body s = TypeError.
Proof.
  intros H; induction before as [|y before IH]; intros i s;
    cbn [app forEachE_from].
  - now rewrite H.
  - destruct (body y i s); [apply IH | reflexivity].
Qed.

Lemma forEachE_throws {A St : Type} (body : A -> nat -> St -> result St)
    (before : list A) (x : A) (after : list A) (s : St) :
  (forall idx s, body x idx s = TypeError) ->
  forEachE (before ++ x :: after)%list body s = TypeError.
Proof.
  intros H. now apply forEachE_from_throws.
Qed.

Lemma forEachE_pushes_total {A : Type} (line : nat -> string) (l : list A)
    (code : list string) :
  exists code',
    forEachE l (fun (_ : A) idx code => Ok (push code (line idx))) code
    = Ok code'.
Proof.
  unfold forEachE. generalize 0. revert code.
  induction l as [|x l IH]; intros code i; cbn [forEachE_from].
  - eexists; reflexivity.
  - apply IH.
Qed.

Lemma absent_middle {A : Type} (before : list A) (x : A) (after : list A) :
  absent (Some (before ++ x :: after)%list) = false.
Proof.
  now destruct before.
Qed.

Lemma length_middle {A : Type} (before : list A) (x : A) (after : list A) :
  Nat.eqb (length (before ++ x :: after)%list) 0 = false.
Proof.
  now destruct before.
Qed.

(** Reading the aliases of an entry that cannot be read, or whose [labels]
    is no array, throws. *)
Lemma raw_labels_read_throws (x : Raw.value)
    (body : Raw.value -> nat -> list string -> result (list string))
    (code : list string) :
  Raw.nullish x || Raw.labels_not_an_array x = true ->
  (labels <- Raw.get x "labels" ;;
   if Raw.truthy labels then Raw.forEachV labels body code else Ok code)
  = TypeError.
Proof.
  destruct x as [| | | | | |properties]; try discriminate; try reflexivity.
  cbn [Raw.nullish Raw.labels_not_an_array orb Raw.get bindE].
  intros H. apply andb_prop in H. destruct H as [Ht Hn]. rewrite Ht.
  now destruct (Raw.lookup "labels" properties).
Qed.

Lemma raw_get_throws (x : Raw.value) (p : string) :
  Raw.nullish x = true -> Raw.get x p = TypeError.
Proof.
  destruct x; try discriminate; reflexivity.
Qed.

Ltac unreadable_entries generator :=
  intros before x after; split;
  [ destruct (Raw.nullish x) eqn:Hx; [|exact I];
    unfold generator; rewrite absent_middle; cbn [or_empty]; split;
    (rewrite forEachE_throws;
     [ reflexivity
     | intros idx s; rewrite (raw_get_throws x _ Hx); reflexivity ])
  | destruct (Raw.labels_not_an_array x) eqn:Hx; [|exact I];
    unfold generator; rewrite absent_middle; cbn [or_empty];
    rewrite forEachE_throws;
    [ reflexivity
    | intros idx s; apply raw_labels_read_throws; rewrite Hx;
      apply orb_true_r ] ].

Lemma raw_generateEncoders_throws :
  Raw.throws_on_unreadable_entries Raw.generateEncoders.
Proof.
  unreadable_entries Raw.generateEncoders.
Qed.

Lemma raw_generateSwitches_throws :
  Raw.throws_on_unreadable_entries Raw.generateSwitches.
Proof.
  unreadable_entries Raw.generateSwitches.
Qed.

Lemma raw_generateLeds_throws :
  Raw.throws_on_unreadable_entries Raw.generateLeds.
Proof.
  unreadable_entries Raw.generateLeds.
Qed.

Lemma raw_generateRgbLeds_throws :
  Raw.throws_on_unreadable_entries Raw.generateRgbLeds.
Proof.
  unreadable_entries Raw.generateRgbLeds.
Qed.

Lemma raw_generateGateInputs_throws :
  Raw.throws_on_unreadable_entries Raw.generateGateInputs.
Proof.
  unreadable_entries Raw.generateGateInputs.
Qed.

Lemma raw_analog_all_controls_throw (before : list Raw.value) (x : Raw.value)
    (after : list Raw.value) (analog_controls cv_inputs : option (list Raw.value)) :
  (([] ++ or_empty analog_controls) ++ or_empty cv_inputs)%list
  = (before ++ x :: after)%list ->
  (if Raw.nullish x
   then Raw.generateAnalogControls analog_controls cv_inputs DECLARATION
        = TypeError
        /\ Raw.generateAnalogControls analog_controls cv_inputs INITIALIZATION
           = TypeError
   else True)
  /\ (if Raw.labels_not_an_array x
      then Raw.generateAnalogControls analog_controls cv_inputs DECLARATION
           = TypeError
      else True).
Proof.
  intros E. split.
  - destruct (Raw.nullish x) eqn:Hx; [|exact I].
    unfold Raw.generateAnalogControls. rewrite E, length_middle. split.
    + rewrite forEachE_throws; [reflexivity|].
      intros idx s. now rewrite (raw_get_throws x _ Hx).
    + rewrite forEachE_throws; [reflexivity|].
      intros idx s. now rewrite (raw_get_throws x _ Hx).
  - destruct (Raw.labels_not_an_array x) eqn:Hx; [|exact I].
    unfold Raw.generateAnalogControls. rewrite E, length_middle.
    rewrite forEachE_throws; [reflexivity|].
    intros idx s. apply raw_labels_read_throws. rewrite Hx. apply orb_true_r.
Qed.

Lemma raw_generateAnalogControls_throws (other : option (list Raw.value)) :
  Raw.throws_on_unreadable_entries
    (fun analog_controls => Raw.generateAnalogControls analog_controls other)
  /\ Raw.throws_on_unreadable_entries
       (fun cv_inputs => Raw.generateAnalogControls other cv_inputs).
Proof.
  split; intros before x after.
  - apply (raw_analog_all_controls_throw before x (after ++ or_empty other)).
    cbn [app or_empty]. now rewrite <- app_assoc.
  - apply (raw_analog_all_controls_throw (or_empty other ++ before) x after).
    cbn [app or_empty]. now rewrite <- app_assoc.
Qed.

Ltac processing_total generator :=
  intros entries; unfold generator;
  destruct (absent entries); [eexists; reflexivity|];
  match goal with
  | |- context [forEachE ?l (fun _ idx code => Ok (push code (@?line idx))) ?c] =>
      destruct (forEachE_pushes_total line l c) as [code' ->]
  end;
  eexists; reflexivity.

Lemma raw_processing_never_throws :
  Forall (Raw.never_throws_at PROCESSING)
    [ Raw.generateEncoders; Raw.generateSwitches; Raw.generateLeds;
      Raw.generateRgbLeds ]
  /\ forall analog_controls cv_inputs,
       exists fragment,
         Raw.generateAnalogControls analog_controls cv_inputs PROCESSING
         = Ok fragment.
Proof.
  split.
  - repeat (apply Forall_cons; [|]); try apply Forall_nil.
    + processing_total Raw.generateEncoders.
    + processing_total Raw.generateSwitches.
    + processing_total Raw.generateLeds.
    + processing_total Raw.generateRgbLeds.
  - intros analog_controls cv_inputs. unfold Raw.generateAnalogControls.
    destruct (Nat.eqb _ 0); [eexists; reflexivity|].
    match goal with
    | |- context [forEachE ?l (fun _ idx code => Ok (push code (@?line idx))) ?c] =>
        destruct (forEachE_pushes_total line l c) as [code' ->]
    end.
    eexists; reflexivity.
Qed.

(** C7, as the code has it.  A generator returns a string or throws,
    never an undefined value.  First part, on the entries of a well-formed
    document (objects with scalar fields and with labels missing or an
    array of strings): every generator other than the display one returns a
    string at every phase; the display generator returns a string at the
    include, declaration and processing phases, and at the initialization
    phase it returns a string when every entry carries the configuration
    object its transport selects and throws otherwise; a missing or empty
    list gives the empty fragment at every phase, and a phase to which a
    kind contributes nothing gives the empty fragment.  Second part, for
    the generators other than the display one on lists of arbitrary values:
    on well-formed entries they return the strings of the first part; a
    missing or empty list and a phase without contribution give the empty
    fragment whatever the entries are; the CV-output and placeholder
    generators never throw, and no generator throws at the processing
    phase; the analog, encoder, switch, LED, RGB LED and gate-input
    generators throw at the declaration and at the initialization when an
    entry is null or undefined, and at the declaration when the labels of
    an entry is there and is not an array. *)
Theorem generators_return_fragments :
  ((forall (context : Context) (m m' : bool),
       generateAnalogControls (no_entries m) (no_entries m') context = ""
       /\ generateCvOutputs (no_entries m) context = ""
       /\ generateEncoders (no_entries m) context = ""
       /\ generateSwitches (no_entries m) context = ""
       /\ generateLeds (no_entries m) context = ""
       /\ generateRgbLeds (no_entries m) context = ""
       /\ generateGateInputs (no_entries m) context = ""
       /\ generateGateOutputs (no_entries (A := GateOutput.t) m) context = ""
       /\ generateMidiHandlers (no_entries (A := MidiHandler.t) m) context = ""
       /\ generateOledDisplays (no_entries m) context = (Ok "", no_entries m))
   /\ (forall (context : Earlier.Context) (m m' : bool),
         Earlier.generateAnalogControls (no_entries m) (no_entries m') context
         = "")
   /\ (forall analog_controls cv_inputs,
         generateAnalogControls analog_controls cv_inputs INCLUDE = "")
   /\ (forall cv_outputs context,
         generateCvOutputs cv_outputs context
         = match context with
           | INITIALIZATION => generateCvOutputs cv_outputs INITIALIZATION
           | _ => ""
           end)
   /\ (forall encoders, generateEncoders encoders INCLUDE = "")
   /\ (forall switches, generateSwitches switches INCLUDE = "")
   /\ (forall leds, generateLeds leds INCLUDE = "")
   /\ (forall rgb_leds, generateRgbLeds rgb_leds INCLUDE = "")
   /\ (forall gate_inputs,
         generateGateInputs gate_inputs INCLUDE = ""
         /\ generateGateInputs gate_inputs PROCESSING = "")
   /\ (forall oled_displays,
         fst (generateOledDisplays oled_displays PROCESSING) = Ok "")
   /\ (forall oled_displays,
         exists fragment,
           fst (generateOledDisplays oled_displays INCLUDE) = Ok fragment)
   /\ (forall oled_displays,
         exists fragment,
           fst (generateOledDisplays oled_displays DECLARATION) = Ok fragment)
   /\ (forall oled_displays,
         exists fragment,
           fst (generateOledDisplays oled_displays INITIALIZATION)
           = if forallb transport_config_present (or_empty oled_displays)
             then Ok fragment
             else TypeError))
  /\ (forall context : Context,
        (forall analog_controls cv_inputs,
            Raw.generateAnalogControls
              (Raw.of_list Raw.of_analog_control analog_controls)
              (Raw.of_list Raw.of_analog_control cv_inputs) context
            = Ok (generateAnalogControls analog_controls cv_inputs context))
        /\ (forall cv_outputs,
              Raw.generateCvOutputs (Raw.of_list Raw.of_cv_output cv_outputs)
                context
              = Ok (generateCvOutputs cv_outputs context))
        /\ (forall encoders,
              Raw.generateEncoders (Raw.of_list Raw.of_encoder encoders) context
              = Ok (generateEncoders encoders context))
        /\ (forall switches,
              Raw.generateSwitches (Raw.of_list Raw.of_switch switches) context
              = Ok (generateSwitches switches context))
        /\ (forall leds,
              Raw.generateLeds (Raw.of_list Raw.of_led leds) context
              = Ok (generateLeds leds context))
        /\ (forall rgb_leds,
              Raw.generateRgbLeds (Raw.of_list Raw.of_rgb_led rgb_leds) context
              = Ok (generateRgbLeds rgb_leds context))
        /\ (forall gate_inputs,
              Raw.generateGateInputs (Raw.of_list Raw.of_gate_input gate_inputs)
                context
              = Ok (generateGateInputs gate_inputs context)))
  /\ Forall Raw.empty_without_entries
       [ Raw.generateCvOutputs; Raw.generateEncoders; Raw.generateSwitches;
         Raw.generateLeds; Raw.generateRgbLeds; Raw.generateGateInputs;
         Raw.generateGateOutputs; Raw.generateMidiHandlers ]
  /\ (forall (m m' : bool) (context : Context),
        Raw.generateAnalogControls (no_entries m) (no_entries m') context
        = Ok "")
  /\ Forall (Raw.empty_at INCLUDE)
       [ Raw.generateCvOutputs; Raw.generateEncoders; Raw.generateSwitches;
         Raw.generateLeds; Raw.generateRgbLeds; Raw.generateGateInputs;
         Raw.generateGateOutputs; Raw.generateMidiHandlers ]
  /\ (forall analog_controls cv_inputs,
        Raw.generateAnalogControls analog_controls cv_inputs INCLUDE = Ok "")
  /\ Forall (Raw.empty_at DECLARATION)
       [ Raw.generateCvOutputs; Raw.generateGateOutputs;
         Raw.generateMidiHandlers ]
  /\ Forall (Raw.empty_at INITIALIZATION)
       [ Raw.generateGateOutputs; Raw.generateMidiHandlers ]
  /\ Forall (Raw.empty_at PROCESSING)
       [ Raw.generateCvOutputs; Raw.generateGateInputs;
         Raw.generateGateOutputs; Raw.generateMidiHandlers ]
  /\ Raw.never_throws_at INITIALIZATION Raw.generateCvOutputs
  /\ Forall (Raw.never_throws_at PROCESSING)
       [ Raw.generateEncoders; Raw.generateSwitches; Raw.generateLeds;
         Raw.generateRgbLeds ]
  /\ (forall analog_controls cv_inputs,
        exists fragment,
          Raw.generateAnalogControls analog_controls cv_inputs PROCESSING
          = Ok fragment)
  /\ Forall Raw.throws_on_unreadable_entries
       [ Raw.generateEncoders; Raw.generateSwitches; Raw.generateLeds;
         Raw.generateRgbLeds; Raw.generateGateInputs ]
  /\ (forall other : option (list Raw.value),
        Raw.throws_on_unreadable_entries
          (fun analog_controls =>
             Raw.generateAnalogControls analog_controls other)
        /\ Raw.throws_on_unreadable_entries
             (fun cv_inputs => Raw.generateAnalogControls other cv_inputs))
  /\ Raw.generateSwitches (Some [ Raw.switch_with_string_labels ]) DECLARATION
     = TypeError
  /\ Raw.generateEncoders (Some [ Raw.VNull ]) DECLARATION = TypeError.
Proof.
  split.
  { split; [|split; [|split; [|split; [|split; [|split; [|split; [|split;
      [|split; [|split; [|split; [|split]]]]]]]]]]].
    - intros context m m'. destruct m, m', context; repeat split.
    - intros context m m'. destruct m, m'; reflexivity.
    - intros analog_controls cv_inputs. unfold generateAnalogControls.
      now destruct (Nat.eqb _ 0).
    - intros cv_outputs context. unfold generateCvOutputs.
      destruct (absent cv_outputs), context; reflexivity.
    - intros l. unfold generateEncoders. now destruct (absent l).
    - intros l. unfold generateSwitches. now destruct (absent l).
    - intros l. unfold generateLeds. now destruct (absent l).
    - intros l. unfold generateRgbLeds. now destruct (absent l).
    - intros l. unfold generateGateInputs. now destruct (absent l).
    - intros l. unfold generateOledDisplays. now destruct (absent l).
    - intros l. unfold generateOledDisplays.
      destruct (absent l); cbn [fst]; [eexists; reflexivity|].
      destruct (existsb _ _); eexists; reflexivity.
    - intros l. unfold generateOledDisplays.
      destruct (absent l); cbn [fst]; eexists; reflexivity.
    - intros [[|e l]|]; try (exists ""; reflexivity).
      rewrite generateOledDisplays_initialization. cbn [or_empty]. unfold mapi.
      pose proof (display_init_blocks_present (e :: l) 0) as H.
      destruct (forallb transport_config_present (e :: l)).
      + destruct H as [blocks ->]. eexists; reflexivity.
      + rewrite H. exists "". reflexivity. }
  split; [|split; [|split; [|split; [|split; [|split; [|split; [|split;
    [|split; [|split; [|split; [|split; [|split; [|split]]]]]]]]]]]]].
  - intros context. repeat apply conj; intros.
    + apply raw_generateAnalogControls_refines.
    + apply raw_generateCvOutputs_refines.
    + apply raw_generateEncoders_refines.
    + apply raw_generateSwitches_refines.
    + apply raw_generateLeds_refines.
    + apply raw_generateRgbLeds_refines.
    + apply raw_generateGateInputs_refines.
  - repeat (apply Forall_cons; [intros [] []; reflexivity|]). apply Forall_nil.
  - intros [] [] []; reflexivity.
  - repeat (apply Forall_cons; [|]); try apply Forall_nil; intros entries.
    + unfold Raw.generateCvOutputs. now destruct (absent entries).
    + unfold Raw.generateEncoders. now destruct (absent entries).
    + unfold Raw.generateSwitches. now destruct (absent entries).
    + unfold Raw.generateLeds. now destruct (absent entries).
    + unfold Raw.generateRgbLeds. now destruct (absent entries).
    + unfold Raw.generateGateInputs. now destruct (absent entries).
    + reflexivity.
    + reflexivity.
  - intros analog_controls cv_inputs. unfold Raw.generateAnalogControls.
    now destruct (Nat.eqb _ 0).
  - repeat (apply Forall_cons; [|]); try apply Forall_nil; intros entries.
    + unfold Raw.generateCvOutputs. now destruct (absent entries).
    + reflexivity.
    + reflexivity.
  - repeat (apply Forall_cons; [|]); try apply Forall_nil; intros entries;
      reflexivity.
  - repeat (apply Forall_cons; [|]); try apply Forall_nil; intros entries.
    + unfold Raw.generateCvOutputs. now destruct (absent entries).
    + unfold Raw.generateGateInputs. now destruct (absent entries).
    + reflexivity.
    + reflexivity.
  - intros entries. unfold Raw.generateCvOutputs.
    destruct (absent entries); eexists; reflexivity.
  - apply raw_processing_never_throws.
  - apply raw_processing_never_throws.
  - repeat (apply Forall_cons; [|]); try apply Forall_nil.
    + exact raw_generateEncoders_throws.
    + exact raw_generateSwitches_throws.
    + exact raw_generateLeds_throws.
    + exact raw_generateRgbLeds_throws.
    + exact raw_generateGateInputs_throws.
  - exact raw_generateAnalogControls_throws.
  - reflexivity.
  - reflexivity.
Qed.

(** C7 as stated fails: on the display entry that has its driver,
    transport and dimensions but no transport configuration object, the
    initialization phase of the display generator throws. *)
Lemma display_initialization_throws :
  fst (generateOledDisplays (Some [ssd130x_i2c_bare]) INITIALIZATION)
  = TypeError.
Proof.
  reflexivity.
Qed.

(** ** Initialization and processing fragments of the array kinds *)

(** X1. For a non-empty encoder list, the initialization fragment is the
    BEGIN line, one Init line per encoder in list order carrying the
    encoder's index and its three pins, and the END line; the processing
    fragment is the heading followed by one Debounce line per encoder in
    list order. *)
Theorem encoders_initialization_and_processing (e : Encoder.t)
    (l : list Encoder.t) :
  generateEncoders (Some (e :: l)) INITIALIZATION
  = join (nl ++ "        ")
      ("// BEGIN - encoders initialization"
       :: mapi encoder_init_line (e :: l)
       ++ [ "// END - encoders initialization" ])%list
  /\ generateEncoders (Some (e :: l)) PROCESSING
     = join (nl ++ "        ")
         ("// process encoders" :: mapi encoder_process_line (e :: l)).
Proof.
  unfold generateEncoders. cbn [absent or_empty]. split.
  - now rewrite (forEach_pushes _ encoder_init_line) by reflexivity.
  - now rewrite (forEach_pushes _ encoder_process_line) by reflexivity.
Qed.

(** X2. For a non-empty switch list, the initialization fragment is the
    BEGIN line, one Init line per switch in list order carrying the index,
    the pin and the type, polarity and pull values as they are, and the END
    line; the processing fragment is the heading followed by one Debounce
    line per switch. *)
Theorem switches_initialization_and_processing (e : Switch.t)
    (l : list Switch.t) :
  generateSwitches (Some (e :: l)) INITIALIZATION
  = join (nl ++ "        ")
      ("// BEGIN - switches initialization"
       :: mapi switch_init_line (e :: l)
       ++ [ "// END - switches initialization" ])%list
  /\ generateSwitches (Some (e :: l)) PROCESSING
     = join (nl ++ "        ")
         ("// process switches" :: mapi switch_process_line (e :: l)).
Proof.
  unfold generateSwitches. cbn [absent or_empty]. split.
  - now rewrite (forEach_pushes _ switch_init_line) by reflexivity.
  - now rewrite (forEach_pushes _ switch_process_line) by reflexivity.
Qed.

(** X3. For a non-empty LED list, the initialization fragment is the BEGIN
    line, one Init line per LED in list order with its index, pin and the
    truth value of its invert flag, and the END line; the processing
    fragment is the heading followed by one Update line per LED. *)
Theorem leds_initialization_and_processing (e : Led.t) (l : list Led.t) :
  generateLeds (Some (e :: l)) INITIALIZATION
  = join (nl ++ "        ")
      ("// BEGIN - leds initialization"
       :: mapi led_init_line (e :: l)
       ++ [ "// END - leds initialization" ])%list
  /\ generateLeds (Some (e :: l)) PROCESSING
     = join (nl ++ "        ")
         ("// process leds" :: mapi led_process_line (e :: l)).
Proof.
  unfold generateLeds. cbn [absent or_empty]. split.
  - now rewrite (forEach_pushes _ led_init_line) by reflexivity.
  - now rewrite (forEach_pushes _ led_process_line) by reflexivity.
Qed.

(** X4. For a non-empty RGB LED list, the initialization fragment is the
    BEGIN line, one Init line per RGB LED in list order with its index, its
    three pins and the truth value of its invert flag, and the END line; the
    processing fragment is the heading followed by one Update line per RGB
    LED. *)
Theorem rgb_leds_initialization_and_processing (e : RgbLed.t)
    (l : list RgbLed.t) :
  generateRgbLeds (Some (e :: l)) INITIALIZATION
  = join (nl ++ "        ")
      ("// BEGIN - rgb_leds initialization"
       :: mapi rgb_led_init_line (e :: l)
       ++ [ "// END - rgb_leds initialization" ])%list
  /\ generateRgbLeds (Some (e :: l)) PROCESSING
     = join (nl ++ "        ")
         ("// process rgb_leds" :: mapi rgb_led_process_line (e :: l)).
Proof.
  unfold generateRgbLeds. cbn [absent or_empty]. split.
  - now rewrite (forEach_pushes _ rgb_led_init_line) by reflexivity.
  - now rewrite (forEach_pushes _ rgb_led_process_line) by reflexivity.
Qed.

(** X5. For a non-empty gate-input list, the initialization fragment
    declares the one pin handle once and then, for each gate input in list
    order, assigns the handle from the entry's pin and initializes the entry
    at its index with it: two lines per entry, whatever the number of
    entries. *)
Theorem gate_inputs_initialization (e : GateInput.t) (l : list GateInput.t) :
  generateGateInputs (Some (e :: l)) INITIALIZATION
  = join (nl ++ "        ")
      ("// BEGIN - gate_inputs initialization"
       :: "dsy_gpio_pin gate_input_pin;"
       :: concat (mapi gate_input_init_lines (e :: l))
       ++ [ "// END -  gate_inputs initialization" ])%list
  /\ length (concat (mapi gate_input_init_lines (e :: l)))
     = 2 * length (e :: l).
Proof.
  split.
  - unfold generateGateInputs. cbn [absent or_empty].
    rewrite (forEach_appends _ gate_input_init_lines); [reflexivity|].
    intros x idx code. unfold push, gate_input_init_lines.
    now rewrite <- app_assoc.
  - assert (G : forall (k : list GateInput.t) (n : nat),
               length (concat (mapi_from n gate_input_init_lines k))
               = 2 * length k).
    { induction k as [|x k IH]; intros n; [reflexivity|].
      cbn [mapi_from concat length app gate_input_init_lines].
      rewrite IH. lia. }
    apply G.
Qed.

(** ** Identifiers *)

Lemma to_uint_nonnil (n : nat) : Nat.to_uint n <> Decimal.Nil.
Proof.
  rewrite <- (DecimalNat.Unsigned.of_to n) at 1.
  rewrite DecimalNat.Unsigned.to_of.
  apply DecimalFacts.unorm_nonnil.
Qed.

Lemma nat_str_read (n : nat) :
  NilZero.uint_of_string (nat_str n) = Some (Nat.to_uint n).
Proof.
  apply NilZero.usu, to_uint_nonnil.
Qed.

Lemma nat_str_inj (n m : nat) : nat_str n = nat_str m -> n = m.
Proof.
  intros E. apply DecimalNat.Unsigned.to_uint_inj.
  pose proof (nat_str_read n) as Hn. rewrite E, nat_str_read in Hn.
  now injection Hn.
Qed.

Lemma nat_str_nonempty (n : nat) : nat_str n <> "".
Proof.
  intros E. pose proof (nat_str_read n) as Hn. rewrite E in Hn. discriminate.
Qed.

Lemma append_cancel_l (a x y : string) : a ++ x = a ++ y -> x = y.
Proof.
  induction a as [|c a IH]; simpl; intros E; [exact E|].
  injection E as E. now apply IH.
Qed.

Lemma append_empty_r (a : string) : a ++ "" = a.
Proof.
  induction a as [|c a IH]; simpl; [reflexivity | now rewrite IH].
Qed.

Lemma append_assoc (a b c : string) : (a ++ b) ++ c = a ++ b ++ c.
Proof.
  induction a as [|x a IH]; simpl; [reflexivity | now rewrite IH].
Qed.

(** X11. The naming convention never gives two indices the same
    identifier, whatever the base name: the display variables display,
    display1, display2, ... are pairwise distinct, and so are the decimal
    texts of two different indices (array slots, display_config
    suffixes). *)
Theorem names_of_distinct_indices_differ (base : string) (i j : nat) :
  i <> j ->
  name base i <> name base j /\ nat_str i <> nat_str j.
Proof.
  intros Hij. split.
  - intros E. apply Hij.
    destruct i as [|i], j as [|j]; cbn [name] in E.
    + reflexivity.
    + exfalso. apply (nat_str_nonempty (S j)).
      apply (append_cancel_l base). now rewrite append_empty_r.
    + exfalso. apply (nat_str_nonempty (S i)).
      apply (append_cancel_l base). now rewrite append_empty_r.
    + apply nat_str_inj. now apply (append_cancel_l base).
  - intros E. apply Hij. now apply nat_str_inj.
Qed.

Lemma names_of_distinct_indices_differ_witness :
  name "display" 0 <> name "display" 1 /\ nat_str 0 <> nat_str 1.
Proof.
  apply (names_of_distinct_indices_differ "display" 0 1). discriminate.
Defined.

(** ** What the display generator reads *)

Lemma strict_eq_str_true (v : jsval) (lit : string) :
  strict_eq_str v lit = true <-> v = JStr lit.
Proof.
  destruct v; simpl; try (split; discriminate).
  rewrite String.eqb_eq. split; [now intros -> | now intros [= ->]].
Qed.

Lemma existsb_driver_derived (lit : string) (l : list OledDisplay.t) :
  existsb (fun d => strict_eq_str (OledDisplay.driver d) lit)
          (map derive_driver_name l)
  = existsb (fun d => strict_eq_str (OledDisplay.driver d) lit) l.
Proof.
  induction l as [|d l IH]; simpl; [reflexivity | now rewrite IH].
Qed.

(** X6. At the include phase the display generator returns the include
    line of the SSD130x header exactly when some entry has the driver
    SSD130x, once however many such entries there are, and the empty
    fragment exactly when no entry has it. *)
Theorem include_exactly_for_ssd130x (oled_displays : list OledDisplay.t) :
  (fst (generateOledDisplays (Some oled_displays) INCLUDE) = Ok ssd130x_include
   <-> exists d, In d oled_displays /\ OledDisplay.driver d = JStr "SSD130x")
  /\ (fst (generateOledDisplays (Some oled_displays) INCLUDE) = Ok ""
      <-> forall d, In d oled_displays -> OledDisplay.driver d <> JStr "SSD130x").
Proof.
  assert (R : fst (generateOledDisplays (Some oled_displays) INCLUDE)
              = if existsb (fun d => strict_eq_str (OledDisplay.driver d) "SSD130x")
                           oled_displays
                then Ok ssd130x_include else Ok "").
  { destruct oled_displays as [|e l]; [reflexivity|].
    unfold generateOledDisplays. cbn [absent or_empty fst].
    rewrite existsb_driver_derived.
    now destruct (existsb _ (e :: l)). }
  rewrite R.
  destruct (existsb _ oled_displays) eqn:E.
  - apply existsb_exists in E. destruct E as (d & Hin & Hd).
    apply strict_eq_str_true in Hd.
    split; split.
    + intros _. now exists d.
    + reflexivity.
    + discriminate.
    + intros H. exfalso. now apply (H d).
  - assert (N : forall d, In d oled_displays ->
                          OledDisplay.driver d <> JStr "SSD130x").
    { intros d Hin Hd.
      assert (T : existsb (fun d => strict_eq_str (OledDisplay.driver d) "SSD130x")
                          oled_displays = true).
      { apply existsb_exists. exists d. split; [exact Hin|].
        now apply strict_eq_str_true. }
      rewrite T in E. discriminate. }
    split; split.
    + discriminate.
    + intros (d & Hin & Hd). exfalso. now apply (N d).
    + intros _. exact N.
    + reflexivity.
Qed.

Lemma display_lines_unselected (spi : nat -> option SpiConfig.t)
    (i2c : nat -> option I2cConfig.t) (idx n : nat) (d : OledDisplay.t) :
  display_init_block idx
    (derive_driver_name (with_unselected_configs spi i2c n d))
  = display_init_block idx (derive_driver_name d)
  /\ display_decl_line idx
       (derive_driver_name (with_unselected_configs spi i2c n d))
     = display_decl_line idx (derive_driver_name d)
  /\ OledDisplay.driver
       (derive_driver_name (with_unselected_configs spi i2c n d))
     = OledDisplay.driver (derive_driver_name d).
Proof.
  destruct d as [dr tr dim s i dn].
  unfold with_unselected_configs.
  cbn [OledDisplay.transport OledDisplay.driver OledDisplay.dimensions
       OledDisplay._4_wire_spi_config OledDisplay.i2c_config
       OledDisplay.driver_name].
  unfold display_init_block, display_transport_lines, display_decl_line.
  destruct (strict_eq_str tr "4WireSpi") eqn:E1;
    [|destruct (strict_eq_str tr "I2c") eqn:E2];
    cbn [derive_driver_name OledDisplay.set_driver_name OledDisplay.transport
         OledDisplay.driver OledDisplay.dimensions
         OledDisplay._4_wire_spi_config OledDisplay.i2c_config
         OledDisplay.driver_name];
    rewrite ?E1, ?E2; repeat split.
Qed.

Lemma display_entries_unselected (spi : nat -> option SpiConfig.t)
    (i2c : nat -> option I2cConfig.t) (l : list OledDisplay.t) (n : nat) :
  mapi_from n display_init_block
    (map derive_driver_name (mapi_from n (with_unselected_configs spi i2c) l))
  = mapi_from n display_init_block (map derive_driver_name l)
  /\ mapi_from n display_decl_line
       (map derive_driver_name (mapi_from n (with_unselected_configs spi i2c) l))
     = mapi_from n display_decl_line (map derive_driver_name l)
  /\ existsb (fun d => strict_eq_str (OledDisplay.driver d) "SSD130x")
       (map derive_driver_name (mapi_from n (with_unselected_configs spi i2c) l))
     = existsb (fun d => strict_eq_str (OledDisplay.driver d) "SSD130x")
         (map derive_driver_name l).
Proof.
  revert n; induction l as [|d l IH]; intros n; [repeat split|].
  destruct (IH (S n)) as (I1 & I2 & I3).
  destruct (display_lines_unselected spi i2c n n d) as (D1 & D2 & D3).
  cbn [mapi_from map existsb].
  rewrite I1, I2, I3, D1, D2, D3. repeat split.
Qed.

(** X7. The display generator never reads the configuration object that an
    entry's transport does not select: replacing the i2c_config of the
    4WireSpi entries, the 4_wire_spi_config of the I2c entries and both
    objects of the entries with any other transport by arbitrary values (or
    removing them) changes the result at no phase. *)
Theorem unselected_config_is_never_read (spi : nat -> option SpiConfig.t)
    (i2c : nat -> option I2cConfig.t) (e : OledDisplay.t)
    (l : list OledDisplay.t) (context : Context) :
  fst (generateOledDisplays
         (Some (mapi (with_unselected_configs spi i2c) (e :: l))) context)
  = fst (generateOledDisplays (Some (e :: l)) context).
Proof.
  destruct (display_entries_unselected spi i2c (e :: l) 0) as (I1 & I2 & I3).
  unfold mapi. cbn [mapi_from].
  change (with_unselected_configs spi i2c 0 e
          :: mapi_from 1 (with_unselected_configs spi i2c) l)
    with (mapi_from 0 (with_unselected_configs spi i2c) (e :: l)) in *.
  destruct context.
  - unfold generateOledDisplays at 2. cbn [absent or_empty fst]. rewrite <- I3.
    reflexivity.
  - rewrite generateOledDisplays_declaration. unfold mapi. rewrite <- I2.
    cbn [mapi_from]. rewrite generateOledDisplays_declaration. reflexivity.
  - rewrite generateOledDisplays_initialization. unfold mapi. rewrite <- I1.
    cbn [mapi_from]. rewrite generateOledDisplays_initialization. reflexivity.
  - reflexivity.
Qed.

(** ** When generation throws, and what it leaves behind *)

Lemma generateOledDisplays_initialization_result
    (o : option (list OledDisplay.t)) :
  exists fragment,
    fst (generateOledDisplays o INITIALIZATION)
    = if forallb transport_config_present (or_empty o)
      then Ok fragment else TypeError.
Proof.
  destruct o as [[|e l]|]; try (exists ""; reflexivity).
  rewrite generateOledDisplays_initialization. cbn [or_empty]. unfold mapi.
  pose proof (display_init_blocks_present (e :: l) 0) as H.
  destruct (forallb transport_config_present (e :: l)).
  - destruct H as [blocks ->]. eexists; reflexivity.
  - rewrite H. exists "". reflexivity.
Qed.

Lemma generateOledDisplays_other_phases (o : option (list OledDisplay.t))
    (context : Context) :
  context <> INITIALIZATION ->
  exists fragment, fst (generateOledDisplays o context) = Ok fragment.
Proof.
  intros Hc. unfold generateOledDisplays.
  destruct (absent o); cbn [fst]; [eexists; reflexivity|].
  destruct context; try (eexists; reflexivity); [|now elim Hc].
  destruct (existsb _ _); eexists; reflexivity.
Qed.

Lemma call_oled_result (context : Context) (hd : HardwareDescription.t) :
  fst (call OledDisplays context hd)
  = fst (generateOledDisplays (HardwareDescription.oled_displays hd) context).
Proof.
  unfold call.
  now destruct (generateOledDisplays (HardwareDescription.oled_displays hd) context).
Qed.

Lemma concatE_all_ok (l : list (result string)) :
  (forall r, In r l -> exists s, r = Ok s) -> exists s, concatE l = Ok s.
Proof.
  induction l as [|r l IH]; intros H; cbn [concatE].
  - eexists; reflexivity.
  - destruct (H r (or_introl eq_refl)) as [s ->].
    destruct IH as [t ->]; [intros r' Hr'; apply H; now right|].
    eexists; reflexivity.
Qed.

Lemma concatE_throws (l : list (result string)) :
  In TypeError l -> concatE l = TypeError.
Proof.
  induction l as [|r l IH]; intros H; [destruct H|].
  cbn [concatE]. destruct r as [s|]; [|reflexivity].
  destruct H as [H|H]; [discriminate|].
  cbn [bindE]. now rewrite IH.
Qed.

Lemma raw_call_refines (k : Kind) (context : Context)
    (hd : HardwareDescription.t) :
  Raw.call k context hd = fst (call k context hd).
Proof.
  destruct k; unfold Raw.call, call; cbn [fst].
  - apply raw_generateAnalogControls_refines.
  - apply raw_generateCvOutputs_refines.
  - apply raw_generateEncoders_refines.
  - apply raw_generateGateInputs_refines.
  - reflexivity.
  - apply raw_generateLeds_refines.
  - reflexivity.
  - now destruct (generateOledDisplays (HardwareDescription.oled_displays hd) context).
  - apply raw_generateRgbLeds_refines.
  - apply raw_generateSwitches_refines.
Qed.

(** X8. On a document with well-formed entries (objects with scalar
    fields, labels missing or an array of strings, display entries with
    optional configuration objects: what the record types hold), every call
    of a generator other than the display one returns a string, also when
    the generator is taken on arbitrary values, where it could throw; so
    generation throws exactly when some display entry lacks the
    configuration object its transport selects, and returns a text
    otherwise, in particular when the document has no displays.  Documents
    with unreadable entries are not covered: there the other generators
    throw as well. *)
Theorem generation_throws_exactly_for_missing_config
    (hd : HardwareDescription.t) :
  (forall k context,
      Raw.call k context hd = fst (call k context hd)
      /\ match k with
         | OledDisplays => True
         | _ => exists fragment, Raw.call k context hd = Ok fragment
         end)
  /\ exists text,
       fst (generateCustomHardwareImpl hd)
       = if forallb transport_config_present
            (or_empty (HardwareDescription.oled_displays hd))
         then Ok text else TypeError.
Proof.
  split.
  { intros k context. split; [apply raw_call_refines|].
    destruct k; try exact I; rewrite raw_call_refines;
      eexists; reflexivity. }
  rewrite generateCustomHardwareImpl_text.
  destruct (generateOledDisplays_initialization_result
              (HardwareDescription.oled_displays hd)) as [fragment Hinit].
  destruct (forallb transport_config_present
              (or_empty (HardwareDescription.oled_displays hd))).
  - apply concatE_all_ok. intros r Hr.
    apply in_map_iff in Hr. destruct Hr as ([s|k c] & <- & _).
    + eexists; reflexivity.
    + cbn [piece_text]. destruct k; try (eexists; reflexivity).
      rewrite call_oled_result.
      destruct c; try (apply generateOledDisplays_other_phases; discriminate).
      eexists; exact Hinit.
  - exists "". apply concatE_throws. apply in_map_iff.
    exists (Gen OledDisplays INITIALIZATION). split.
    + cbn [piece_text]. now rewrite call_oled_result.
    + unfold hardware_implementation. simpl. tauto.
Qed.







(** ** The frame of the text *)

Lemma concatE_header (s : string) (l : list (result string)) (text : string) :
  concatE (Ok s :: l) = Ok text ->
  exists t, concatE l = Ok t /\ text = s ++ t.
Proof.
  cbn [concatE bindE]. destruct (concatE l) as [t|]; cbn [bindE]; [|discriminate].
  intros [= <-]. now exists t.
Qed.

Lemma concatE_footer (l : list (result string)) (s text : string) :
  concatE (l ++ [Ok s])%list = Ok text ->
  exists t, concatE l = Ok t /\ text = t ++ s.
Proof.
  revert text; induction l as [|r l IH]; intros text.
  - cbn. intros [= <-]. exists "". split; [reflexivity|].
    now rewrite append_empty_r.
  - cbn [app concatE]. destruct r as [a|]; cbn [bindE]; [|discriminate].
    destruct (concatE (l ++ [Ok s])%list) as [u|]; cbn [bindE]; [|discriminate].
    destruct (IH u eq_refl) as (t & -> & ->).
    intros [= <-]. exists (a ++ t). split; [reflexivity|].
    now rewrite append_assoc.
Qed.

(** X10. Every text that generation returns starts with the two blank
    lines and the include of daisy_seed.h, and ends with the closing of the
    last routine and of the Daisy struct: the fragments only ever stand
    between the first and the last literal chunk of the template. *)
Theorem text_has_fixed_header_and_footer (hd : HardwareDescription.t)
    (text : string) :
  fst (generateCustomHardwareImpl hd) = Ok text ->
  exists body, text = artifact_header ++ body ++ artifact_footer.
Proof.
  rewrite generateCustomHardwareImpl_text.
  assert (T : hardware_implementation
              = (Lit artifact_header
                 :: removelast (tl hardware_implementation)
                 ++ [Lit artifact_footer])%list) by reflexivity.
  rewrite T. cbn [map piece_text]. rewrite map_app. cbn [map piece_text].
  intros H.
  apply concatE_header in H. destruct H as (t & H & ->).
  apply concatE_footer in H. destruct H as (body & _ & ->).
  now exists body.
Qed.

Lemma text_has_fixed_header_and_footer_witness :
  exists text,
    fst (generateCustomHardwareImpl one_display) = Ok text
    /\ exists body, text = artifact_header ++ body ++ artifact_footer.
Proof.
  eexists. split; [reflexivity|].
  apply (text_has_fixed_header_and_footer one_display). reflexivity.
Defined.

Lemma piece_text_cv_outputs (hd : HardwareDescription.t)
    (a b : CvOutput.t) (l l' : list CvOutput.t) (p : piece) :
  piece_text (set_cv_outputs hd (Some (a :: l))) p
  = piece_text (set_cv_outputs hd (Some (b :: l'))) p.
Proof.
  destruct p as [s|k c]; [reflexivity|].
  destruct hd; destruct k; try reflexivity.
  unfold piece_text, call; simpl.
  destruct (generateOledDisplays oled_displays c); reflexivity.
Qed.

(** X12. Nothing of a non-empty cv_outputs list but its being non-empty
    reaches the generated text: two documents that differ only in their
    non-empty cv_outputs lists, whatever the number and the fields of the
    entries, give the same result. *)
Theorem cv_outputs_entries_do_not_matter (hd : HardwareDescription.t)
    (a b : CvOutput.t) (l l' : list CvOutput.t) :
  fst (generateCustomHardwareImpl (set_cv_outputs hd (Some (a :: l))))
  = fst (generateCustomHardwareImpl (set_cv_outputs hd (Some (b :: l')))).
Proof.
  rewrite !generateCustomHardwareImpl_text. f_equal.
  apply map_ext. intros p. apply piece_text_cv_outputs.
Qed.

Lemma concatE_literal (hd : HardwareDescription.t) (template : list piece) :
  (forall k c, fst (call k c hd) = Ok "") ->
  concatE (map (piece_text hd) template) = Ok (literal_text template).
Proof.
  intros H. induction template as [|p rest IH]; [reflexivity|].
  destruct p as [s|k c]; cbn [map concatE piece_text literal_text].
  - now rewrite IH.
  - now rewrite H, IH.
Qed.

Lemma no_fragments_calls (hd : HardwareDescription.t) :
  no_fragments hd = true -> forall k c, fst (call k c hd) = Ok "".
Proof.
  destruct hd as [ac cv co en gi go le mh ol rg sw].
  unfold no_fragments.
  cbn [HardwareDescription.analog_controls HardwareDescription.cv_inputs
       HardwareDescription.cv_outputs HardwareDescription.encoders
       HardwareDescription.gate_inputs HardwareDescription.leds
       HardwareDescription.oled_displays HardwareDescription.rgb_leds
       HardwareDescription.switches].
  intros H.
  repeat (apply andb_prop in H; let H' := fresh "A" in destruct H as [H H']).
  intros k c. destruct k; unfold call;
    cbn [HardwareDescription.analog_controls HardwareDescription.cv_inputs
         HardwareDescription.cv_outputs HardwareDescription.encoders
         HardwareDescription.gate_inputs HardwareDescription.leds
         HardwareDescription.oled_displays HardwareDescription.rgb_leds
         HardwareDescription.midi_handlers HardwareDescription.switches fst].
  - destruct ac as [[|? ?]|], cv as [[|? ?]|]; try discriminate; reflexivity.
  - unfold generateCvOutputs. now rewrite A5.
  - unfold generateEncoders. now rewrite A4.
  - unfold generateGateInputs. now rewrite A3.
  - reflexivity.
  - unfold generateLeds. now rewrite A2.
  - reflexivity.
  - unfold generateOledDisplays. now rewrite A1.
  - unfold generateRgbLeds. now rewrite A0.
  - unfold generateSwitches. now rewrite A.
Qed.

(** X14. When every list that a generator reads is missing or empty, the
    generated text is exactly the literal text of the template: a missing
    list and an empty list are not told apart, and whatever gate_outputs and
    midi_handlers contain leaves no trace. *)
Theorem no_peripherals_gives_the_literal_text (hd : HardwareDescription.t) :
  no_fragments hd = true ->
  fst (generateCustomHardwareImpl hd)
  = Ok (literal_text hardware_implementation).
Proof.
  intros H. rewrite generateCustomHardwareImpl_text.
  apply concatE_literal. now apply no_fragments_calls.
Qed.

Lemma no_peripherals_gives_the_literal_text_witness :
  fst (generateCustomHardwareImpl
         (HardwareDescription.mk (Some []) None (Some []) None (Some [])
            (Some [ GateOutput.mk (JNum 4) None ]) None None (Some []) None
            (Some [])))
  = Ok (literal_text hardware_implementation).
Proof.
  apply no_peripherals_gives_the_literal_text. reflexivity.
Defined.

(** ** Flags count through their truth value *)

Lemma forEach_from_map_same {A St : Type} (h : A -> A)
    (body : A -> nat -> St -> St) (l : list A) :
  (forall x idx s, body (h x) idx s = body x idx s) ->
  forall i s, forEach_from i (map h l) body s = forEach_from i l body s.
Proof.
  intros H; induction l as [|x l IH]; intros i s; [reflexivity|].
  cbn [map forEach_from]. now rewrite H, IH.
Qed.

Lemma forEach_map_same {A St : Type} (h : A -> A)
    (body : A -> nat -> St -> St) (l : list A) (s : St) :
  (forall x idx s, body (h x) idx s = body x idx s) ->
  forEach (map h l) body s = forEach l body s.
Proof.
  intros H. unfold forEach. now apply forEach_from_map_same.
Qed.

Lemma or_empty_map {A : Type} (h : A -> A) (o : option (list A)) :
  or_empty (option_map (map h) o) = map h (or_empty o).
Proof.
  now destruct o.
Qed.

Lemma absent_map {A : Type} (h : A -> A) (o : option (list A)) :
  absent (option_map (map h) o) = absent o.
Proof.
  now destruct o as [[|x l]|].
Qed.

(** X15. The flip and invert flags of analog controls and CV inputs and
    the invert flag of LEDs and RGB LEDs reach the text through their truth
    value only: replacing each flag by the boolean it is converted to
    (a missing flag by false, a non-zero number or a non-empty string by
    true) changes no fragment at any phase. *)
Theorem flags_count_through_their_truth_value :
  (forall (analog_controls cv_inputs : option (list AnalogControl.t))
          (context : Context),
      generateAnalogControls
        (option_map (map analog_truth_values) analog_controls)
        (option_map (map analog_truth_values) cv_inputs) context
      = generateAnalogControls analog_controls cv_inputs context)
  /\ (forall (leds : option (list Led.t)) (context : Context),
        generateLeds (option_map (map led_truth_value) leds) context
        = generateLeds leds context)
  /\ (forall (rgb_leds : option (list RgbLed.t)) (context : Context),
        generateRgbLeds (option_map (map rgb_led_truth_value) rgb_leds) context
        = generateRgbLeds rgb_leds context).
Proof.
  split; [|split].
  - intros ac cv context. unfold generateAnalogControls.
    rewrite !or_empty_map. cbn [app]. rewrite <- map_app, length_map.
    destruct (Nat.eqb _ 0); [reflexivity|].
    destruct context; try reflexivity.
    + now rewrite forEach_map_same by (intros [] ? ?; reflexivity).
    + rewrite forEach_map_same by (intros [] ? ?; reflexivity).
      now rewrite forEach_map_same by (intros [] ? ?; reflexivity).
    + now rewrite forEach_map_same by (intros [] ? ?; reflexivity).
  - intros leds context. unfold generateLeds.
    rewrite absent_map, or_empty_map, length_map.
    destruct (absent leds); [reflexivity|].
    destruct context; try reflexivity;
      now rewrite forEach_map_same by (intros [] ? ?; reflexivity).
  - intros rgb_leds context. unfold generateRgbLeds.
    rewrite absent_map, or_empty_map, length_map.
    destruct (absent rgb_leds); [reflexivity|].
    destruct context; try reflexivity;
      now rewrite forEach_map_same by (intros [] ? ?; reflexivity).
Qed.

(** ** The revision with three contexts *)

(** X13. In the revision with three contexts, too, the analog array is
    declared with size count(analog_controls) + count(cv_inputs), without
    aliases, and the channel configurations, the Init calls and the Process
    calls are those of the later revision, indented by eight spaces, with
    the analog_controls entries first and the cv_inputs entries after
    them. *)
Theorem earlier_analog_merge_count_and_order
    (analog_controls cv_inputs : option (list AnalogControl.t)) :
  (or_empty analog_controls ++ or_empty cv_inputs)%list <> [] ->
  let A := or_empty analog_controls in
  let C := or_empty cv_inputs in
  let n := length A + length C in
  let indented (line : nat -> AnalogControl.t -> string) :=
    fun idx e => "        " ++ line idx e in
  Earlier.generateAnalogControls analog_controls cv_inputs Earlier.DECLARATION
  = nl ++ "    //  analog_controls declaration" ++ nl
    ++ "    AnalogControl controls[" ++ nat_str n ++ "];"
  /\ Earlier.generateAnalogControls analog_controls cv_inputs
       Earlier.INITIALIZATION
     = nl ++ "        // BEGIN - analog_controls initialization" ++ nl
       ++ "        AdcChannelConfig cfg[" ++ nat_str n ++ "];" ++ nl
       ++ "        " ++ nl
       ++ join nl (mapi (indented analog_cfg_line) A
                   ++ mapi_from (length A) (indented analog_cfg_line) C)%list
       ++ nl
       ++ "        seed.adc.Init(cfg, " ++ nat_str n ++ ");" ++ nl
       ++ "        " ++ nl
       ++ join nl (mapi (indented analog_init_line) A
                   ++ mapi_from (length A) (indented analog_init_line) C)%list
       ++ nl
       ++ "        seed.adc.Start();" ++ nl
       ++ "        // END - analog_controls initialization"
  /\ Earlier.generateAnalogControls analog_controls cv_inputs Earlier.PROCESSING
     = nl ++ "          // process analog_controls" ++ nl
       ++ "          " ++ nl
       ++ join nl (mapi (indented analog_process_line) A
                   ++ mapi_from (length A) (indented analog_process_line) C)%list.
Proof.
  intros Hne A C n indented.
  unfold Earlier.generateAnalogControls.
  change (([] ++ or_empty analog_controls) ++ or_empty cv_inputs)%list
    with (A ++ C)%list.
  assert (Hlen : length (A ++ C)%list = n) by apply length_app.
  rewrite Hlen.
  assert (Hn : Nat.eqb n 0 = false).
  { apply Nat.eqb_neq. intros E. apply Hne.
    apply length_zero_iff_nil. fold A C. now rewrite Hlen. }
  rewrite Hn. unfold mapi. rewrite !mapi_from_app.
  repeat split.
Qed.

Lemma earlier_analog_merge_count_and_order_witness :
  Earlier.generateAnalogControls (Some two_analog_controls) (Some one_cv_input)
    Earlier.DECLARATION
  = nl ++ "    //  analog_controls declaration" ++ nl
    ++ "    AnalogControl controls[3];"
  /\ Earlier.generateAnalogControls (Some two_analog_controls)
       (Some one_cv_input) Earlier.PROCESSING
     = nl ++ "          // process analog_controls" ++ nl
       ++ "          " ++ nl
       ++ join nl [ "        controls[0].Process();";
                    "        controls[1].Process();";
                    "        controls[2].Process();" ].
Proof.
  assert (Hne : (or_empty (Some two_analog_controls)
                 ++ or_empty (Some one_cv_input))%list <> [])
    by discriminate.
  destruct (earlier_analog_merge_count_and_order
              (Some two_analog_controls) (Some one_cv_input) Hne)
    as (Hd & _ & Hp).
  split; [exact Hd | exact Hp].
Defined.
